(** * uspsimb.py: USPS Intelligent Mail Barcode encoder

    A shallow embedding of [src/uspsimb.py] (Python 2) and the properties
    of its field model, table builder and encoding pipeline.

    Python values are modelled as follows:
    - [str] (a Python 2 byte string) is a [list ascii];
    - [int]/[long] is [Z] (unbounded, so no wrap-around appears);
    - [array.array('H')] and [list] are Rocq lists read with [!!] and
      updated with [<[i:=v]>], the Python bounds check and the wrapping of
      negative indices being written out in [py_index];
    - a raised exception is the [Raise] branch of [result];
    - the text written by [print] is a list of lines threaded through the
      loop that prints. *)

From Stdlib Require Import ZArith Ascii String Lia.
From stdpp Require Import base list gmap strings.

Local Open Scope Z_scope.

(** ** Python runtime *)

Inductive exn : Type :=
| AssertionError (msg : string)
| IndexError
| ValueError
| TypeError
| OverflowError
| UnboundLocalError.

Inductive result (A : Type) : Type :=
| Ok (a : A)
| Raise (e : exn).
Arguments Ok {A} a.
Arguments Raise {A} e.

Definition bind {A B} (r : result A) (k : A -> result B) : result B :=
  match r with
  | Ok a => k a
  | Raise e => Raise e
  end.

Notation "'do' x <- r ; k" := (bind r (fun x => k))
  (at level 10, x name, r at level 100, k at level 200).
Notation "'check' r ; k" := (bind r (fun _ => k))
  (at level 10, r at level 100, k at level 200).

(** [assert cond, msg] *)
Definition py_assert (cond : bool) (msg : string) : result unit :=
  if cond then Ok tt else Raise (AssertionError msg).

(** A Python 2 [str]. *)
Definition str : Type := list ascii.

Definition lit (s : string) : str := list_ascii_of_string s.

Definition len {A} (l : list A) : Z := Z.of_nat (length l).

(** [a == b] on strings. *)
Fixpoint str_eqb (a b : str) : bool :=
  match a, b with
  | [], [] => true
  | x :: a', y :: b' => Ascii.eqb x y && str_eqb a' b'
  | _, _ => false
  end.

(** [c] is one of the bytes '0'..'9'. *)
Definition is_digit_char (c : ascii) : bool :=
  let n := Z.of_N (N_of_ascii c) in (48 <=? n) && (n <=? 57).

Definition digit_val (c : ascii) : Z := Z.of_N (N_of_ascii c) - 48.

(** [s.isdigit()]: every byte is a digit and there is at least one. *)
Definition isdigit (s : str) : bool :=
  match s with
  | [] => false
  | _ => forallb is_digit_char s
  end.

(** The decimal value of a string of digits, most significant first. *)
Definition decimal (s : str) : Z :=
  fold_left (fun acc c => 10 * acc + digit_val c) s 0.

(** [int(s)].  Every call in the source is on a string that is made of
    digits only; on any other string the model raises [ValueError]
    (Python would also take a sign and surrounding blanks). *)
Definition int (s : str) : result Z :=
  if isdigit s then Ok (decimal s) else Raise ValueError.

(** [ord(s)]: defined on strings of length one. *)
Definition ord (s : str) : result Z :=
  match s with
  | [c] => Ok (Z.of_N (N_of_ascii c))
  | _ => Raise TypeError
  end.

(** The position read by [l[i]]: negative indices count from the end,
    anything outside [-len, len) raises [IndexError]. *)
Definition py_index {A} (l : list A) (i : Z) : result nat :=
  let n := len l in
  if (0 <=? i) && (i <? n) then Ok (Z.to_nat i)
  else if (- n <=? i) && (i <? 0) then Ok (Z.to_nat (i + n))
  else Raise IndexError.

(** [l[i]] *)
Definition getitem {A} (l : list A) (i : Z) : result A :=
  do k <- py_index l i ;
  match l !! k with
  | Some a => Ok a
  | None => Raise IndexError
  end.

(** [l[i] = v] *)
Definition setitem {A} (l : list A) (i : Z) (v : A) : result (list A) :=
  do k <- py_index l i ;
  Ok (<[k := v]> l).

(** [s[i]] on a string is a string of length one. *)
Definition str_getitem (s : str) (i : Z) : result str :=
  do c <- getitem s i ; Ok [c].

(** [s[a:b]] and [s[a:]] for constant non-negative bounds: slices are
    clamped to the string and never raise. *)
Definition slice {A} (l : list A) (a b : nat) : list A :=
  take (b - a) (drop a l).

Definition slice_from {A} (l : list A) (a : nat) : list A := drop a l.

(** [for x in l: acc = body(acc, x)], stopping at the first exception. *)
Fixpoint for_each {A S} (l : list A) (body : S -> A -> result S) (s : S)
  : result S :=
  match l with
  | [] => Ok s
  | x :: l' => do s' <- body s x ; for_each l' body s'
  end.

(** [range(a, b)] *)
Fixpoint count_from (a : Z) (n : nat) : list Z :=
  match n with
  | O => []
  | S n' => a :: count_from (a + 1) n'
  end.

Definition range (a b : Z) : list Z := count_from a (Z.to_nat (b - a)).

(** ** Combinatorial table builder *)

(** [bin(n).count('1')] for [n >= 0]. *)
Fixpoint pos_popcount (p : positive) : Z :=
  match p with
  | xH => 1
  | xO q => pos_popcount q
  | xI q => 1 + pos_popcount q
  end.

Definition bit_count (n : Z) : Z :=
  match n with
  | Zpos p => pos_popcount p
  | _ => 0
  end.

(** One turn of the loop of [_reverse_unsigned_short], on [(rev, ushort)]. *)
Definition reverse_step (st : Z * Z) : Z * Z :=
  let '(rev, ushort) := st in
  let rev := Z.shiftl rev 1 in
  let rev := Z.lor rev (Z.land ushort 1) in
  let ushort := Z.shiftr ushort 1 in
  (rev, ushort).

Definition _reverse_unsigned_short (ushort : Z) : Z :=
  fst (Nat.iter 16 reverse_step (0, ushort)).

(** The 13-bit reversal the table builder uses. *)
Definition rev13 (count : Z) : Z := Z.shiftr (_reverse_unsigned_short count) 3.

(** [lut.append(v)] / [lut[i] = v] on an [array('H')]: the item must fit
    an unsigned short. *)
Definition ushort_ok (v : Z) : bool := (0 <=? v) && (v <=? 65535).

Definition array_set (lut : list Z) (i v : Z) : result (list Z) :=
  if ushort_ok v then setitem lut i v else Raise OverflowError.

(** The state of the filling loop. *)
Record lut_state : Type := LutState {
  lut : list Z;
  lut_lower : Z;
  lut_upper : Z
}.

Definition lookup_table_step (table_type : Z) (st : lut_state) (count : Z)
  : result lut_state :=
  let bit_count := bit_count count in
  if negb (bit_count =? table_type) then Ok st
  else
    let rev := rev13 count in
    if rev <? count then Ok st
    else if count =? rev then
      do l <- array_set (lut st) (lut_upper st) count ;
      Ok (LutState l (lut_lower st) (lut_upper st - 1))
    else
      do l <- array_set (lut st) (lut_lower st) count ;
      let lower := lut_lower st + 1 in
      do l <- array_set l lower rev ;
      Ok (LutState l (lower + 1) (lut_upper st)).

(** The body of [_lookup_table] up to its [return], keeping the two
    cursors. *)
Definition lookup_table_fill (table_type length : Z) : result lut_state :=
  check py_assert ((table_type =? 2) || (table_type =? 5))
    "lookup_table type must be 2 or 5" ;
  check py_assert ((length =? 78) || (length =? 1287))
    "lookup_table length must be 78 or 1279" ;
  let lut := map (fun _ => 0) (range 0 length) in
  for_each (range 0 8192) (lookup_table_step table_type)
    (LutState lut 0 (length - 1)).

Definition _lookup_table (table_type length : Z) : result (list Z) :=
  do st <- lookup_table_fill table_type length ; Ok (lut st).

(** ** Field model *)

Record IntelligentMailBarcode : Type := {
  barcode_id : str;
  service_type_id : str;
  mailer_id : str;
  serial_num : str;
  deliv_zip : str
}.

Definition between (lo x hi : Z) : bool := (lo <=? x) && (x <=? hi).

(** [IntelligentMailBarcode.__init__]: the assertions in source order. *)
Definition __init__ (barcode_id st_id mailer_id serial_num deliv_zip : str)
  : result IntelligentMailBarcode :=
  check py_assert (isdigit barcode_id) "" ;
  check py_assert (isdigit st_id) "" ;
  check py_assert (isdigit mailer_id) "" ;
  check py_assert (isdigit serial_num) "" ;
  check py_assert (isdigit deliv_zip || (len deliv_zip =? 0)) "" ;
  do b <- int barcode_id ;
  check py_assert (between 0 (b mod 10) 4)
    "barcode id must end in 0-4 (and be 2-digit)" ;
  do b <- int barcode_id ;
  check py_assert (between 0 b 99)
    "barcode id must be 2-digit (and end in 0-4)" ;
  do s <- int st_id ;
  check py_assert (between 0 s 999) "Service Type ID must be 3-digit" ;
  let mid_len := len mailer_id in
  check py_assert ((mid_len =? 6) || (mid_len =? 9))
    "Mailer id must be 6 or 9 digits" ;
  check (if mid_len =? 9 then
           do m <- int mailer_id ;
           py_assert (between 900000000 m 999999999) "Invalid mailer_id range"
         else
           do m <- int mailer_id ;
           py_assert (between 0 m 899999) "Invalid mailer_id range") ;
  let snum_len := len serial_num in
  check py_assert ((snum_len =? 6) || (snum_len =? 9))
    "Serial num must be 6 or 9 digits" ;
  check (if len serial_num =? 9 then
           py_assert (mid_len =? 6)
             "mailer id must be 6-digit when serial num is 9-digit"
         else
           py_assert (mid_len =? 9)
             "mailer id must be 9-digit when serial num is 6-digit") ;
  let dzip_len := len deliv_zip in
  check py_assert ((dzip_len =? 0) || (dzip_len =? 5) ||
                   (dzip_len =? 9) || (dzip_len =? 11)) "" ;
  Ok {| barcode_id := barcode_id;
        service_type_id := st_id;
        mailer_id := mailer_id;
        serial_num := serial_num;
        deliv_zip := deliv_zip |}.

Definition tracking (imb : IntelligentMailBarcode) : str :=
  barcode_id imb ++ service_type_id imb ++ mailer_id imb ++ serial_num imb.

Definition routing (imb : IntelligentMailBarcode) : str := deliv_zip imb.

Definition __str__ (imb : IntelligentMailBarcode) : str :=
  tracking imb ++ routing imb.

(** [from_t_and_r] *)
Definition from_t_and_r (tracking_routing : str)
  : result IntelligentMailBarcode :=
  let tracking := slice tracking_routing 0 20 in
  let routing := slice_from tracking_routing 20 in
  let bar_id := slice tracking 0 2 in
  let st_id := slice tracking 2 5 in
  do c <- str_getitem tracking 5 ;
  let '(m_id, seq_num) :=
    if str_eqb c (lit "9") then (slice tracking 5 14, slice tracking 14 20)
    else (slice tracking 5 11, slice tracking 11 20) in
  __init__ bar_id st_id m_id seq_num routing.

(** ** Bar construction table *)

Definition BAR_CONSTRUCTION_TABLE : list str := map lit [
"1 H 2 E 3"; "2 B 10 A 0"; "3 J 12 C 8"; "4 F 5 G 11"; "5 I 9 D 1";
"6 A 1 F 12"; "7 C 5 B 8"; "8 E 4 J 11"; "9 G 3 I 10"; "10 D 9 H 6";
"11 F 11 B 4"; "12 I 5 C 12"; "13 J 10 A 2"; "14 H 1 G 7"; "15 D 6 E 9";
"16 A 3 I 6"; "17 G 4 C 7"; "18 B 1 J 9"; "19 H 10 F 2"; "20 E 0 D 8";
"21 G 2 A 4"; "22 I 11 B 0"; "23 J 8 D 12"; "24 C 6 H 7"; "25 F 1 E 10";
"26 B 12 G 9"; "27 H 3 I 0"; "28 F 8 J 7"; "29 E 6 C 10"; "30 D 4 A 5";
"31 I 4 F 7"; "32 H 11 B 9"; "33 G 0 J 6"; "34 A 6 E 8"; "35 C 1 D 2";
"36 F 9 I 12"; "37 E 11 G 1"; "38 J 5 H 4"; "39 D 3 B 2"; "40 A 7 C 0";
"41 B 3 E 1"; "42 G 10 D 5"; "43 I 7 J 4"; "44 C 11 F 6"; "45 A 8 H 12";
"46 E 2 I 1"; "47 F 10 D 0"; "48 J 3 A 9"; "49 G 5 C 4"; "50 H 8 B 7";
"51 F 0 E 5"; "52 C 3 A 10"; "53 G 12 J 2"; "54 D 11 B 6"; "55 I 8 H 9";
"56 F 4 A 11"; "57 B 5 C 2"; "58 J 1 E 12"; "59 I 3 G 6"; "60 H 0 D 7";
"61 E 7 H 5"; "62 A 12 B 11"; "63 C 9 J 0"; "64 G 8 F 3"; "65 D 10 I 2"
]%string.

Record BarMap : Type := {
  desc_char : str;
  desc_bit : str;
  asc_char : str;
  asc_bit : str
}.

(** [s.split(sep)] for a one-byte separator. *)
Fixpoint split (sep : ascii) (s : str) : list str :=
  match s with
  | [] => [[]]
  | c :: s' =>
      if Ascii.eqb c sep then [] :: split sep s'
      else match split sep s' with
           | w :: ws => (c :: w) :: ws
           | [] => [[c]]
           end
  end.

(** One turn of the loop of [_bar_construction_table]; unpacking anything
    but five items raises [ValueError]. *)
Definition bar_table_step (bar_table : list BarMap) (element : str)
  : result (list BarMap) :=
  match split " " element with
  | [_; desc_char; desc_bit; asc_char; asc_bit] =>
      Ok (bar_table ++ [{| desc_char := desc_char; desc_bit := desc_bit;
                           asc_char := asc_char; asc_bit := asc_bit |}])
  | _ => Raise ValueError
  end.

Definition _bar_construction_table : result (list BarMap) :=
  for_each BAR_CONSTRUCTION_TABLE bar_table_step [].

(** ** The encoder *)

(** Step 1: the data fields as one integer.  A routing length the
    constructor rules out leaves [rc_val] unbound, so the next statement
    raises. *)
Definition routing_code (imb : IntelligentMailBarcode) : result Z :=
  let routing_len := len (routing imb) in
  if routing_len =? 0 then Ok 0
  else if routing_len =? 5 then
    do r <- int (routing imb) ; Ok (r + 1)
  else if routing_len =? 9 then
    do r <- int (routing imb) ; Ok (r + 100001)
  else if routing_len =? 11 then
    do r <- int (routing imb) ; Ok (r + 1000100001)
  else Raise UnboundLocalError.

Definition binary_compose (imb : IntelligentMailBarcode) : result Z :=
  do rc_val <- routing_code imb ;
  let rc_val := rc_val * 10 in
  do c <- str_getitem (tracking imb) 0 ;
  do d <- int c ;
  let rc_val := rc_val + d in
  let rc_val := rc_val * 5 in
  do c <- str_getitem (tracking imb) 1 ;
  do d <- int c ;
  let rc_val := rc_val + d in
  for_each (slice_from (tracking imb) 2)
    (fun rc_val c => do d <- int [c] ; Ok (rc_val * 10 + d)) rc_val.

(** Step 2: the 11-bit frame check sequence. *)
Definition gen_poly : Z := 0x0f35.

(** One turn of the bit loop, on [(fcs, data)]. *)
Definition fcs_step (st : Z * Z) : Z * Z :=
  let '(fcs, data) := st in
  let fcs :=
    if negb (Z.land (Z.lxor fcs data) 0x400 =? 0)
    then Z.lxor (Z.shiftl fcs 1) gen_poly
    else Z.shiftl fcs 1 in
  let fcs := Z.land fcs 0x7ff in
  (fcs, Z.shiftl data 1).

Definition fcs_byte (rc_val fcs k : Z) : Z :=
  let data := Z.shiftr rc_val ((12 - k) * 8) in
  let data := Z.land data 0xff in
  let data := Z.shiftl data 3 in
  fst (Nat.iter 8 fcs_step (fcs, data)).

Definition frame_check_sequence (rc_val : Z) : Z :=
  let fcs := 0x07ff in
  let data := Z.shiftl (Z.shiftr rc_val (12 * 8)) 5 in
  let fcs := fst (Nat.iter 6 fcs_step (fcs, data)) in
  fold_left (fcs_byte rc_val) (range 1 13) fcs.

(** Step 3: codeword generation.  The result lists the quotient left
    after the nine divisions and the codewords B to J. *)
Definition divmod (a b : Z) : Z * Z := (a / b, a mod b).

Definition mixed_radix (rc_val : Z) : Z * list Z :=
  let '(rc_val, cw_j) := divmod rc_val 636 in
  let '(rc_val, cw_i) := divmod rc_val 1365 in
  let '(rc_val, cw_h) := divmod rc_val 1365 in
  let '(rc_val, cw_g) := divmod rc_val 1365 in
  let '(rc_val, cw_f) := divmod rc_val 1365 in
  let '(rc_val, cw_e) := divmod rc_val 1365 in
  let '(rc_val, cw_d) := divmod rc_val 1365 in
  let '(rc_val, cw_c) := divmod rc_val 1365 in
  let '(rc_val, cw_b) := divmod rc_val 1365 in
  (rc_val, [cw_b; cw_c; cw_d; cw_e; cw_f; cw_g; cw_h; cw_i; cw_j]).

(** Steps 3 and 4: the assertion on codeword A, then the modification of
    codewords J and A.  The result is the list iterated in step 5. *)
Definition codewords (rc_val fcs : Z) : result (list Z) :=
  match mixed_radix rc_val with
  | (rc_val, [cw_b; cw_c; cw_d; cw_e; cw_f; cw_g; cw_h; cw_i; cw_j]) =>
      check py_assert (between 0 rc_val 658)
        "Codeword conversion error during encoding" ;
      let cw_a := rc_val in
      let cw_j := cw_j * 2 in
      let cw_a :=
        if negb (Z.land (Z.shiftr fcs 10) 1 =? 0) then cw_a + 659 else cw_a in
      Ok [cw_a; cw_b; cw_c; cw_d; cw_e; cw_f; cw_g; cw_h; cw_i; cw_j]
  | _ => Raise ValueError
  end.

(** Step 5, first loop.  [cw_char] is the variable the loop assigns: it
    is unbound before the first assignment and keeps its last value when
    the [else] branch only prints.  [out] collects the printed lines. *)
Fixpoint char_loop (lut5 lut2 : list Z) (cws : list Z)
    (char_list : list Z) (cw_char : option Z) (out : list str)
  : list str * result (list Z) :=
  match cws with
  | [] => (out, Ok char_list)
  | cw :: cws' =>
      let looked_up :=
        if cw <=? 1286 then
          do c <- getitem lut5 cw ; Ok (Some c, out)
        else if (1287 <=? cw) && (cw <=? 1364) then
          do c <- getitem lut2 (cw - 1287) ; Ok (Some c, out)
        else
          Ok (cw_char, out ++ [lit "codeword > 1364, should not happen"]) in
      match looked_up with
      | Raise e => (out, Raise e)
      | Ok (None, out) => (out, Raise UnboundLocalError)
      | Ok (Some c, out) =>
          char_loop lut5 lut2 cws' (char_list ++ [c]) (Some c) out
      end
  end.

(** Step 5, second loop: characters selected by the low FCS bits are
    complemented. *)
Definition invert_step (fcs : Z) (char_list : list Z) (i : Z)
  : result (list Z) :=
  if negb (Z.land fcs (Z.shiftl 1 i) =? 0) then
    do c <- getitem char_list i ;
    setitem char_list i (Z.lxor c 0x1fff)
  else Ok char_list.

(** Step 6: one bar. *)
Definition bar_step (bar_table : list BarMap) (char_list : list Z)
    (enc_str : str) (i : Z) : result str :=
  do bar_map <- getitem bar_table i ;
  do a <- ord (asc_char bar_map) ;
  do base <- ord (lit "A") ;
  let asc_index := a - base in
  do d <- ord (desc_char bar_map) ;
  do base <- ord (lit "A") ;
  let desc_index := d - base in
  do ca <- getitem char_list asc_index ;
  do ba <- int (asc_bit bar_map) ;
  let asc := Z.land ca (Z.shiftl 1 ba) in
  do cd <- getitem char_list desc_index ;
  do bd <- int (desc_bit bar_map) ;
  let desc := Z.land cd (Z.shiftl 1 bd) in
  if negb (asc =? 0) && negb (desc =? 0) then Ok (enc_str ++ lit "F")
  else if negb (asc =? 0) then Ok (enc_str ++ lit "A")
  else if negb (desc =? 0) then Ok (enc_str ++ lit "D")
  else Ok (enc_str ++ lit "T").

(** Steps 5 (second loop) and 6. *)
Definition bars (fcs : Z) (char_list : list Z) : result str :=
  do char_list <- for_each (range 0 10) (invert_step fcs) char_list ;
  do bar_table <- _bar_construction_table ;
  for_each (range 0 65) (bar_step bar_table char_list) [].

(** Steps 1 to 4 and the two tables of step 5. *)
Definition encode_codewords (imb : IntelligentMailBarcode)
  : result (Z * list Z * list Z * list Z) :=
  do rc_val <- binary_compose imb ;
  let fcs := frame_check_sequence rc_val in
  do cws <- codewords rc_val fcs ;
  do lut5 <- _lookup_table 5 1287 ;
  do lut2 <- _lookup_table 2 78 ;
  Ok (fcs, cws, lut5, lut2).

(** [encode]: the printed lines and the returned string or the exception
    raised. *)
Definition encode (imb : IntelligentMailBarcode) : list str * result str :=
  match encode_codewords imb with
  | Raise e => ([], Raise e)
  | Ok (fcs, cws, lut5, lut2) =>
      let '(out, r) := char_loop lut5 lut2 cws [] None [] in
      (out, do char_list <- r ; bars fcs char_list)
  end.

(** ** The command line *)

(** [decode] *)
Definition decode (encstr : str) : str := lit "Not implemented".

(** [set(s)] *)
Definition py_set (s : str) : gset ascii := list_to_set s.

(** One turn of the loop over the arguments in [__main__] (the branch
    taken outside GIMP): the lines printed and, if the turn raises, the
    exception that ends the program. *)
Definition main_step (_i : str) : list str * result unit :=
  if bool_decide (py_set (lit "ADTF") = py_set _i) then
    let decoded := decode _i in
    ([decoded], Ok tt)
  else
    match from_t_and_r _i with
    | Raise e => ([], Raise e)
    | Ok my_imb =>
        match encode my_imb with
        | (out, Raise e) => (out, Raise e)
        | (out, Ok adtf_encoded) => (out ++ [adtf_encoded], Ok tt)
        end
    end.


(** ** Vocabulary of the statements *)

(** The positions of the bits set in a 13-bit value. *)
Definition set_bits (v : Z) : list Z :=
  filter (fun i => Z.testbit v i = true) (range 0 13).

(** [v] is a 13-bit value with exactly [k] bits set. *)
Definition pattern (k : nat) (v : Z) : Prop :=
  0 <= v < 8192 /\ length (set_bits v) = k.

(** A table of [n] pairwise distinct [k]-bit patterns. *)
Record table_ok (k n : nat) (l : list Z) : Prop := {
  table_length : length l = n;
  table_patterns : Forall (pattern k) l;
  table_distinct : NoDup l
}.

(** The layout the filling loop leaves behind: both cursors have met, the
    slots below [lut_lower] hold values that differ from their reversal,
    the slots from [lut_lower] on (those filled backward from the last
    index) hold exactly the values that are their own reversal, and the
    reversal of every entry that is not its own reversal is an entry. *)
Record reversal_layout (st : lut_state) : Prop := {
  cursors_meet : lut_lower st = lut_upper st + 1;
  head_entries :
    Forall (fun v => rev13 v <> v)
           (take (Z.to_nat (lut_lower st)) (lut st));
  tail_entries :
    Forall (fun v => rev13 v = v)
           (drop (Z.to_nat (lut_lower st)) (lut st));
  reversal_closed :
    Forall (fun v => rev13 v = v \/ rev13 v ∈ lut st) (lut st)
}.

(** The record is what the constructor returns on its own fields. *)
Definition accepted (imb : IntelligentMailBarcode) : Prop :=
  __init__ (barcode_id imb) (service_type_id imb) (mailer_id imb)
           (serial_num imb) (deliv_zip imb) = Ok imb.

(** The field widths the assertion messages of the constructor name. *)
Definition standard_widths (imb : IntelligentMailBarcode) : Prop :=
  length (barcode_id imb) = 2%nat /\ length (service_type_id imb) = 3%nat.

(** Every check of the constructor, as one boolean. *)
Definition fields_ok (b s m n z : str) : bool :=
  isdigit b && isdigit s && isdigit m && isdigit n &&
  (isdigit z || (len z =? 0)) &&
  between 0 (decimal b mod 10) 4 && between 0 (decimal b) 99 &&
  between 0 (decimal s) 999 &&
  ((len m =? 6) || (len m =? 9)) &&
  (if len m =? 9 then between 900000000 (decimal m) 999999999
   else between 0 (decimal m) 899999) &&
  ((len n =? 6) || (len n =? 9)) &&
  (if len n =? 9 then len m =? 6 else len m =? 9) &&
  ((len z =? 0) || (len z =? 5) || (len z =? 9) || (len z =? 11)).

(** The symbols of an encoded string. *)
Definition bar_symbol (c : ascii) : Prop :=
  c = "A"%char \/ c = "D"%char \/ c = "T"%char \/ c = "F"%char.

(** What one run of the filling loop establishes. *)
Record fill_facts (k n : nat) (cut : Z) (st : lut_state) : Prop := {
  fill_table : table_ok k n (lut st);
  fill_layout : reversal_layout st;
  fill_cut : lut_lower st = cut
}.

(** The checks of the constructor, as propositions. *)
Record fields_valid (b s m n z : str) : Prop := {
  fv_barcode_digits : isdigit b = true;
  fv_service_digits : isdigit s = true;
  fv_mailer_digits : isdigit m = true;
  fv_serial_digits : isdigit n = true;
  fv_zip_digits : isdigit z = true \/ z = [];
  fv_barcode_low : 0 <= decimal b mod 10 <= 4;
  fv_barcode_range : 0 <= decimal b <= 99;
  fv_service_range : 0 <= decimal s <= 999;
  fv_mailer_serial :
    (length m = 9%nat /\ length n = 6%nat /\
     900000000 <= decimal m <= 999999999) \/
    (length m = 6%nat /\ length n = 9%nat /\ 0 <= decimal m <= 899999);
  fv_zip_length :
    length z = 0%nat \/ length z = 5%nat \/ length z = 9%nat \/
    length z = 11%nat
}.

(** What the constructor asks of the fields other than the mailer id. *)
Record other_fields_valid (b s n z : str) : Prop := {
  ov_barcode_digits : isdigit b = true;
  ov_service_digits : isdigit s = true;
  ov_serial_digits : isdigit n = true;
  ov_zip_digits : isdigit z = true \/ z = [];
  ov_barcode_low : 0 <= decimal b mod 10 <= 4;
  ov_barcode_range : 0 <= decimal b <= 99;
  ov_service_range : 0 <= decimal s <= 999;
  ov_zip_length :
    length z = 0%nat \/ length z = 5%nat \/ length z = 9%nat \/
    length z = 11%nat
}.

(** The constructor returns a record. *)
Definition constructs (b s m n z : str) : Prop :=
  exists r, __init__ b s m n z = Ok r.

(** The largest integer the ten codewords can carry, plus one. *)
Definition payload_limit : Z := 659 * 636 * 1365 ^ 8.

(** The domain of the character mapper. *)
Definition in_codeword_range (cw : Z) : Prop := 0 <= cw <= 1364.

(** An entry of the bar table names two characters among A..J and two
    bit numbers. *)
Definition barmap_ok (bm : BarMap) : bool :=
  match ord (asc_char bm), ord (desc_char bm),
        int (asc_bit bm), int (desc_bit bm) with
  | Ok a, Ok d, Ok ba, Ok bd =>
      between 0 (a - 65) 9 && between 0 (d - 65) 9 &&
      between 0 ba 12 && between 0 bd 12
  | _, _, _, _ => false
  end.

(** The head region of a table read two slots at a time: each value is
    followed by its reversal, which is larger. *)
Fixpoint reversal_pairs (l : list Z) : bool :=
  match l with
  | [] => true
  | a :: l' =>
      match l' with
      | [] => false
      | b :: rest => (b =? rev13 a) && (a <? b) && reversal_pairs rest
      end
  end.

(** The character (0 for A .. 9 for J) and the bit an entry of the bar
    table names, as [bar_step] reads them. *)
Definition char_bit (c b : str) : Z * Z :=
  (match ord c with Ok a => a - 65 | Raise _ => -1 end,
   match int b with Ok k => k | Raise _ => -1 end).

Definition asc_ref (bm : BarMap) : Z * Z := char_bit (asc_char bm) (asc_bit bm).

Definition desc_ref (bm : BarMap) : Z * Z :=
  char_bit (desc_char bm) (desc_bit bm).

(** The 130 references of the bar table, bar by bar. *)
Definition bar_refs (bar_table : list BarMap) : list (Z * Z) :=
  flat_map (fun bm => [asc_ref bm; desc_ref bm]) bar_table.

(** The 13 bits of each of the 10 characters. *)
Definition character_bits : list (Z * Z) :=
  flat_map (fun c => map (fun b => (c, b)) (range 0 13)) (range 0 10).

(** The integer the ten codewords of step 4 stand for: codeword A
    without the FCS flag, then base 1365 for B to I, then base 636 for
    the half of J. *)
Definition payload_of_codewords (cws : list Z) : Z :=
  match cws with
  | [cw_a; cw_b; cw_c; cw_d; cw_e; cw_f; cw_g; cw_h; cw_i; cw_j] =>
      fold_left (fun acc cw => acc * 1365 + cw)
                [cw_b; cw_c; cw_d; cw_e; cw_f; cw_g; cw_h; cw_i]
                (cw_a mod 659) * 636 + cw_j / 2
  | _ => 0
  end.

(** The character step 5 assigns to a codeword: the two tables read as
    one, the 5-bit patterns first. *)
Definition character_of (lut5 lut2 : list Z) (cw : Z) : Z :=
  default 0 ((lut5 ++ lut2) !! Z.to_nat cw).

(** An encoded line: 65 symbols among A, D, T, F. *)
Definition encoded_line (s : str) : Prop :=
  length s = 65%nat /\ Forall bar_symbol s.

(** The symbol of a bar from its ascender and descender bits. *)
Definition symbol_of (asc desc : bool) : ascii :=
  if asc && desc then "F"%char
  else if asc then "A"%char
  else if desc then "D"%char
  else "T"%char.

(** Bit [snd ref] of character [fst ref]. *)
Definition char_bit_set (char_list : list Z) (ref : Z * Z) : bool :=
  Z.testbit (default 0 (char_list !! Z.to_nat (fst ref))) (snd ref).

(** The bar step 6 draws for an entry of the bar table. *)
Definition bar_of (char_list : list Z) (bm : BarMap) : ascii :=
  symbol_of (char_bit_set char_list (asc_ref bm))
            (char_bit_set char_list (desc_ref bm)).

(** The characters after the second loop of step 5. *)
Definition inverted (fcs : Z) (char_list : list Z) : list Z :=
  imap (fun i c => if Z.testbit fcs (Z.of_nat i) then Z.lxor c 0x1fff else c)
       char_list.

(** * Properties *)

(** ** Proof automation *)

(** Facts settled by evaluating the model. *)
Ltac by_evaluation :=
  first [ reflexivity
        | unfold pattern; refine (bool_decide_unpack _ _); vm_compute; exact I ].

(** One assertion of the constructor. *)
Ltac assert_step :=
  match goal with
  | |- context [py_assert ?c _] =>
      destruct c eqn:?; cbn [py_assert bind andb orb];
      [| split; [discriminate | now intros [? _]]]
  | |- context [if ?c then _ else _] =>
      destruct c eqn:?; cbn [py_assert bind andb orb]
  end.

(** Closed goals about concrete strings. *)
Ltac evaluate :=
  vm_compute;
  repeat match goal with |- _ /\ _ => split end;
  first [ reflexivity | discriminate
        | left; reflexivity | right; reflexivity ].

(** ** Runtime lemmas *)

Lemma elem_of_count_from (n : nat) (a v : Z) :
  v ∈ count_from a n <-> a <= v < a + Z.of_nat n.
Proof.
  revert a. induction n as [|n IH]; intros a; cbn [count_from].
  - rewrite elem_of_nil. lia.
  - rewrite elem_of_cons, IH. lia.
Qed.

Lemma elem_of_range (a b v : Z) : v ∈ range a b <-> a <= v < b.
Proof. unfold range. rewrite elem_of_count_from. lia. Qed.

Lemma length_count_from (n : nat) (a : Z) : length (count_from a n) = n.
Proof. revert a. induction n; intros; cbn; auto. Qed.

Lemma length_range (a b : Z) : length (range a b) = Z.to_nat (b - a).
Proof. apply length_count_from. Qed.

Lemma getitem_Ok {A} (l : list A) (i : Z) :
  0 <= i < len l -> exists a, getitem l i = Ok a /\ l !! Z.to_nat i = Some a.
Proof.
  intros Hi. unfold getitem, py_index.
  destruct (Z.leb_spec 0 i), (Z.ltb_spec i (len l)); try lia. cbn.
  destruct (lookup_lt_is_Some_2 l (Z.to_nat i)) as [a Ha].
  { unfold len in Hi. lia. }
  exists a. now rewrite Ha.
Qed.

Lemma getitem_out_of_range {A} (l : list A) (i : Z) :
  len l <= i -> getitem l i = Raise IndexError.
Proof.
  intros Hi. unfold getitem, py_index.
  assert (0 <= len l) by (unfold len; lia).
  destruct (Z.leb_spec 0 i), (Z.ltb_spec i (len l)),
    (Z.leb_spec (- len l) i), (Z.ltb_spec i 0); cbn; try lia; reflexivity.
Qed.

(** ** The lookup tables *)

Lemma lookup_table_fill_5 :
  exists st, lookup_table_fill 5 1287 = Ok st /\ fill_facts 5 1287 1272 st.
Proof.
  eexists. split; [vm_compute; reflexivity|].
  split; [split|split|]; by_evaluation.
Qed.

Lemma lookup_table_fill_2 :
  exists st, lookup_table_fill 2 78 = Ok st /\ fill_facts 2 78 72 st.
Proof.
  eexists. split; [vm_compute; reflexivity|].
  split; [split|split|]; by_evaluation.
Qed.

Lemma lookup_table_of_fill (t n : Z) (st : lut_state) :
  lookup_table_fill t n = Ok st -> _lookup_table t n = Ok (lut st).
Proof. intros H. unfold _lookup_table. now rewrite H. Qed.

Lemma patterns_disjoint (j k : nat) (l1 l2 : list Z) :
  j <> k -> Forall (pattern j) l1 -> Forall (pattern k) l2 ->
  Forall (fun v => v ∉ l2) l1.
Proof.
  intros Hjk H1 H2. rewrite Forall_forall in *. intros v Hv1 Hv2.
  destruct (H1 v Hv1) as [_ E1], (H2 v Hv2) as [_ E2]. congruence.
Qed.

(** C6: the table for 5-bit patterns has 1287 entries and the table for
    2-bit patterns has 78; every entry is a 13-bit value with 5 (resp. 2)
    bits set, the entries of each table are pairwise distinct, and no
    value occurs in both tables. *)
Theorem lookup_tables_shape :
  exists lut5 lut2,
    _lookup_table 5 1287 = Ok lut5 /\ _lookup_table 2 78 = Ok lut2 /\
    table_ok 5 1287 lut5 /\ table_ok 2 78 lut2 /\
    Forall (fun v => v ∉ lut2) lut5.
Proof.
  destruct lookup_table_fill_5 as (st5 & E5 & [T5 _ _]).
  destruct lookup_table_fill_2 as (st2 & E2 & [T2 _ _]).
  exists (lut st5), (lut st2).
  split; [exact (lookup_table_of_fill _ _ _ E5)|].
  split; [exact (lookup_table_of_fill _ _ _ E2)|].
  split; [exact T5|]. split; [exact T2|].
  eapply (patterns_disjoint 5 2); [lia | apply T5 | apply T2].
Qed.

(** [rev13] mirrors the thirteen low bits. *)
Lemma rev13_mirror (v i : Z) :
  0 <= v < 8192 -> 0 <= i < 13 ->
  Z.testbit (rev13 v) i = Z.testbit v (12 - i).
Proof.
  intros Hv Hi.
  assert (Hall : Forall (fun v => Forall (fun i =>
            Z.testbit (rev13 v) i = Z.testbit v (12 - i)) (range 0 13))
            (range 0 8192)).
  { refine (bool_decide_unpack _ _). vm_compute. exact I. }
  rewrite Forall_forall in Hall.
  specialize (Hall v (proj2 (elem_of_range 0 8192 v) Hv)).
  rewrite Forall_forall in Hall.
  exact (Hall i (proj2 (elem_of_range 0 13 i) Hi)).
Qed.

(** C7: in each table the 13-bit reversal of every entry that differs from
    its own reversal is an entry of the same table, and the entries equal
    to their own reversal sit exactly in the tail region, the slots filled
    backward from the last index (slots 1272..1286 and 72..77). *)
Theorem lookup_tables_reversal :
  exists st5 st2,
    lookup_table_fill 5 1287 = Ok st5 /\ lookup_table_fill 2 78 = Ok st2 /\
    _lookup_table 5 1287 = Ok (lut st5) /\ _lookup_table 2 78 = Ok (lut st2) /\
    reversal_layout st5 /\ reversal_layout st2 /\
    lut_lower st5 = 1272 /\ lut_lower st2 = 72.
Proof.
  destruct lookup_table_fill_5 as (st5 & E5 & [_ L5 C5]).
  destruct lookup_table_fill_2 as (st2 & E2 & [_ L2 C2]).
  exists st5, st2. auto 10 using lookup_table_of_fill.
Qed.

(** ** Decimal strings *)

Lemma fold_decimal (s : str) (acc : Z) :
  fold_left (fun acc c => 10 * acc + digit_val c) s acc
  = acc * 10 ^ len s + decimal s.
Proof.
  unfold decimal, len. revert acc.
  induction s as [|c s IH]; intros acc.
  - cbn. lia.
  - cbn [fold_left length]. rewrite IH, (IH (10 * 0 + digit_val c)).
    rewrite Nat2Z.inj_succ, Z.pow_succ_r by lia. ring.
Qed.

Lemma decimal_cons (c : ascii) (s : str) :
  decimal (c :: s) = digit_val c * 10 ^ len s + decimal s.
Proof.
  unfold decimal at 1. cbn [fold_left]. rewrite fold_decimal. ring.
Qed.

Lemma digit_val_range (c : ascii) :
  is_digit_char c = true -> 0 <= digit_val c <= 9.
Proof.
  unfold is_digit_char, digit_val.
  intros [H1%Z.leb_le H2%Z.leb_le]%andb_true_iff. lia.
Qed.

Lemma isdigit_forallb (s : str) :
  isdigit s = true <-> s <> [] /\ forallb is_digit_char s = true.
Proof.
  destruct s; cbn [isdigit]; split; easy.
Qed.

Lemma decimal_range (s : str) :
  forallb is_digit_char s = true -> 0 <= decimal s < 10 ^ len s.
Proof.
  induction s as [|c s IH]; [intros _; change (0 <= 0 < 1); lia|].
  cbn [forallb]. intros [Hc Hs]%andb_true_iff.
  rewrite decimal_cons. apply digit_val_range in Hc. specialize (IH Hs).
  unfold len in *. cbn [length]. rewrite Nat2Z.inj_succ, Z.pow_succ_r by lia.
  nia.
Qed.

(** ** The constructor *)

(** The constructor returns the record of its arguments exactly when
    every check passes, and raises otherwise. *)
Lemma init_Ok (b s m n z : str) (r : IntelligentMailBarcode) :
  __init__ b s m n z = Ok r <->
  fields_ok b s m n z = true /\
  r = {| barcode_id := b; service_type_id := s; mailer_id := m;
         serial_num := n; deliv_zip := z |}.
Proof.
  unfold __init__, fields_ok, int.
  repeat assert_step;
    (split;
     [ intros H; first [discriminate H | injection H as <-; auto]
     | intros [H ->]; first [discriminate H | reflexivity] ]).
Qed.

Lemma init_fields (b s m n z : str) (r : IntelligentMailBarcode) :
  __init__ b s m n z = Ok r ->
  barcode_id r = b /\ service_type_id r = s /\ mailer_id r = m /\
  serial_num r = n /\ deliv_zip r = z.
Proof. intros [_ ->]%init_Ok. auto. Qed.

Lemma accepted_fields_ok (imb : IntelligentMailBarcode) :
  accepted imb <->
  fields_ok (barcode_id imb) (service_type_id imb) (mailer_id imb)
            (serial_num imb) (deliv_zip imb) = true.
Proof.
  unfold accepted. rewrite init_Ok. destruct imb; cbn. intuition.
Qed.

Lemma init_accepted (b s m n z : str) (r : IntelligentMailBarcode) :
  __init__ b s m n z = Ok r -> accepted r.
Proof.
  intros H. unfold accepted.
  destruct (init_fields _ _ _ _ _ _ H) as (-> & -> & -> & -> & ->).
  exact H.
Qed.

Lemma between_spec (lo x hi : Z) : between lo x hi = true <-> lo <= x <= hi.
Proof. unfold between. rewrite andb_true_iff, !Z.leb_le. tauto. Qed.

Lemma len_eqb (s : str) (k : nat) :
  (len s =? Z.of_nat k) = true <-> length s = k.
Proof. unfold len. rewrite Z.eqb_eq. lia. Qed.

Lemma len_zero (s : str) : (len s =? 0) = true <-> s = [].
Proof.
  rewrite (len_eqb s 0). split; [apply nil_length_inv | now intros ->].
Qed.

Lemma fields_ok_valid (b s m n z : str) :
  fields_ok b s m n z = true <-> fields_valid b s m n z.
Proof.
  unfold fields_ok.
  destruct (Z.eqb_spec (len m) 9) as [Em|Em], (Z.eqb_spec (len n) 9) as [En|En];
    rewrite !andb_true_iff, !orb_true_iff, !between_spec, ?Z.eqb_eq;
    unfold len in *.
  all: split;
    [ intros H; decompose [and] H; clear H; split; auto; try lia
    | intros [? ? ? ? ? ? ? ? ? ?]; repeat split; auto; try lia ].
  all: match goal with
       | H : isdigit ?z = true \/ _ |- isdigit ?z = true \/ _ =>
           destruct H as [H|H]; [left; exact H | right]
       end.
  all: first [ apply nil_length_inv; lia | subst; reflexivity ].
Qed.

Lemma accepted_valid (imb : IntelligentMailBarcode) :
  accepted imb <->
  fields_valid (barcode_id imb) (service_type_id imb) (mailer_id imb)
               (serial_num imb) (deliv_zip imb).
Proof. now rewrite accepted_fields_ok, fields_ok_valid. Qed.

Lemma init_of_valid (b s m n z : str) :
  fields_valid b s m n z ->
  __init__ b s m n z =
  Ok {| barcode_id := b; service_type_id := s; mailer_id := m;
        serial_num := n; deliv_zip := z |}.
Proof. intros H. apply init_Ok. now rewrite fields_ok_valid. Qed.

(** ** Splitting a tracking and routing string *)

Lemma length_slice {A} (l : list A) (a b : nat) :
  length (slice l a b) = ((b - a) `min` (length l - a))%nat.
Proof. unfold slice. now rewrite length_take, length_drop. Qed.

(** C10: on a string of fewer than six characters the split raises
    [IndexError] when it reads the character at offset 5; the
    constructor and its assertions are never reached. *)
Theorem from_t_and_r_short (t : str) :
  (length t < 6)%nat -> from_t_and_r t = Raise IndexError.
Proof.
  intros Ht. unfold from_t_and_r, str_getitem.
  rewrite getitem_out_of_range; [reflexivity|].
  unfold len. rewrite length_slice. lia.
Qed.

Lemma from_t_and_r_short_witness :
  (length (lit "01234") < 6)%nat /\
  from_t_and_r (lit "01234") = Raise IndexError.
Proof.
  split; [cbn; lia | apply from_t_and_r_short; cbn; lia].
Defined.

(** ** The range of the mailer id *)

Lemma constructs_valid (b s m n z : str) :
  constructs b s m n z <-> fields_valid b s m n z.
Proof.
  split.
  - intros [r [H _]%init_Ok]. now apply fields_ok_valid.
  - intros H. eexists. now apply init_of_valid.
Qed.

(** C5, as the code has it: the range [900000000, 999999999] is asked of a
    mailer id of 9 digits only, and a mailer id of 6 digits is accepted,
    the other fields being valid and the serial number having the
    complementary length, exactly when its value is in [0, 899999]. *)
Theorem mailer_id_range (b s m n z : str) :
  other_fields_valid b s n z -> isdigit m = true ->
  (length m = 9%nat -> length n = 6%nat ->
   (constructs b s m n z <-> 900000000 <= decimal m <= 999999999)) /\
  (length m = 6%nat -> length n = 9%nat ->
   (constructs b s m n z <-> 0 <= decimal m <= 899999)).
Proof.
  intros [] Hm.
  split; intros Lm Ln; rewrite constructs_valid;
    (split; [intros []; lia | intros Hr; split; auto; lia]).
Qed.

Lemma mailer_id_range_witness :
  (constructs (lit "00") (lit "000") (lit "899999") (lit "000000000") []
   <-> 0 <= decimal (lit "899999") <= 899999) /\
  (constructs (lit "00") (lit "000") (lit "900000000") (lit "000000") []
   <-> 900000000 <= decimal (lit "900000000") <= 999999999).
Proof.
  assert (Ho : forall n, isdigit n = true ->
                other_fields_valid (lit "00") (lit "000") n []).
  { intros n Hn. split; auto; evaluate. }
  split.
  - apply (mailer_id_range (lit "00") (lit "000") (lit "899999")
             (lit "000000000") []); auto.
  - apply (mailer_id_range (lit "00") (lit "000") (lit "900000000")
             (lit "000000") []); auto.
Defined.

(** C5 as stated fails: the 6-digit mailer id 900000 has a value in
    [0, 999999] and every other field is valid, yet the constructor
    raises. *)
Lemma six_digit_mailer_rejected :
  ~ (forall b s m n z,
       other_fields_valid b s n z -> length n = 9%nat ->
       isdigit m = true -> length m = 6%nat -> 0 <= decimal m <= 999999 ->
       constructs b s m n z).
Proof.
  intros H.
  destruct (H (lit "00") (lit "000") (lit "900000") (lit "000000000") [])
    as [r Hr]; try reflexivity.
  - split; evaluate.
  - evaluate.
  - vm_compute in Hr. discriminate Hr.
Qed.

(** ** Standard records: the composed integer *)

Lemma int_digits (s : str) :
  s <> [] -> forallb is_digit_char s = true -> int s = Ok (decimal s).
Proof.
  intros Hne Hs. unfold int.
  now rewrite (proj2 (isdigit_forallb s) (conj Hne Hs)).
Qed.

Lemma int_char (c : ascii) :
  is_digit_char c = true -> int [c] = Ok (digit_val c).
Proof.
  intros Hc. rewrite int_digits; [|easy|cbn; now rewrite Hc].
  rewrite decimal_cons. change (len []) with 0%Z. change (decimal []) with 0.
  f_equal. lia.
Qed.

(** The loop over [tracking[2:]] appends decimal digits. *)
Lemma for_each_digits (l : str) (acc : Z) :
  forallb is_digit_char l = true ->
  for_each l (fun rc_val c => do d <- int [c] ; Ok (rc_val * 10 + d)) acc
  = Ok (acc * 10 ^ len l + decimal l).
Proof.
  revert acc. induction l as [|c l IH]; intros acc.
  - intros _. cbn. f_equal. change (len []) with 0. change (decimal []) with 0.
    lia.
  - cbn [forallb]. intros [Hc Hl]%andb_true_iff.
    cbn [for_each]. rewrite (int_char c Hc). cbn [bind]. rewrite (IH _ Hl).
    f_equal. rewrite decimal_cons. unfold len. cbn [length].
    rewrite Nat2Z.inj_succ, Z.pow_succ_r by lia. ring.
Qed.

Lemma isdigit_chars (s : str) :
  isdigit s = true -> forallb is_digit_char s = true.
Proof. now intros [_ H]%isdigit_forallb. Qed.

Lemma getitem_cons_0 {A} (a : A) (l : list A) : getitem (a :: l) 0 = Ok a.
Proof.
  destruct (getitem_Ok (a :: l) 0) as (x & -> & [= ->]); [|reflexivity].
  unfold len. cbn [length]. lia.
Qed.

Lemma getitem_cons_1 {A} (a b : A) (l : list A) :
  getitem (a :: b :: l) 1 = Ok b.
Proof.
  destruct (getitem_Ok (a :: b :: l) 1) as (x & -> & [= ->]); [|reflexivity].
  unfold len. cbn [length]. lia.
Qed.

(** The routing code of a valid delivery zip. *)
Lemma routing_code_range (imb : IntelligentMailBarcode) :
  accepted imb ->
  exists rc, routing_code imb = Ok rc /\ 0 <= rc <= 101000100000.
Proof.
  intros [_ _ _ _ Hz _ _ _ _ Hl]%accepted_valid.
  unfold routing_code, routing.
  assert (Hd : deliv_zip imb <> [] -> int (deliv_zip imb)
                 = Ok (decimal (deliv_zip imb)) /\
               0 <= decimal (deliv_zip imb) < 10 ^ len (deliv_zip imb)).
  { intros Hne. destruct Hz as [Hz|Hz]; [|contradiction].
    split; [apply int_digits; auto using isdigit_chars|].
    apply decimal_range. auto using isdigit_chars. }
  unfold len in *.
  destruct Hl as [Hl|[Hl|[Hl|Hl]]]; rewrite Hl in *; cbn [Z.eqb Z.of_nat Pos.of_succ_nat Pos.succ Pos.eqb].
  - eexists; split; [reflexivity|lia].
  - destruct Hd as [-> Hr]; [now intros E; rewrite E in Hl|].
    eexists; split; [reflexivity|]. lia.
  - destruct Hd as [-> Hr]; [now intros E; rewrite E in Hl|].
    eexists; split; [reflexivity|]. lia.
  - destruct Hd as [-> Hr]; [now intros E; rewrite E in Hl|].
    eexists; split; [reflexivity|]. lia.
Qed.

Section StandardRecord.
Variable imb : IntelligentMailBarcode.
Hypothesis Hacc : accepted imb.
Hypothesis Hstd : standard_widths imb.

Lemma standard_valid :
  fields_valid (barcode_id imb) (service_type_id imb) (mailer_id imb)
               (serial_num imb) (deliv_zip imb).
Proof. now apply accepted_valid. Qed.

(** The barcode id is two digits, the second one at most 4. *)
Lemma barcode_id_shape :
  exists b0 b1,
    barcode_id imb = [b0; b1] /\
    is_digit_char b0 = true /\ is_digit_char b1 = true /\
    0 <= digit_val b0 <= 9 /\ 0 <= digit_val b1 <= 4.
Proof.
  destruct standard_valid as [Hb _ _ _ _ Hlow _ _ _ _], Hstd as [Hlen _].
  destruct (barcode_id imb) as [|b0 [|b1 [|]]]; try discriminate Hlen.
  apply isdigit_chars in Hb. cbn [forallb] in Hb.
  apply andb_true_iff in Hb as [H0 [H1 _]%andb_true_iff].
  exists b0, b1. repeat split; auto;
    try (apply digit_val_range; assumption).
  all: rewrite decimal_cons, decimal_cons in Hlow;
    change (len [b1]) with 1 in Hlow; change (len []) with 0 in Hlow;
    change (decimal []) with 0 in Hlow;
    apply digit_val_range in H0, H1;
    replace (digit_val b0 * 10 ^ 1 + (digit_val b1 * 10 ^ 0 + 0))
      with (digit_val b1 + digit_val b0 * 10) in Hlow by ring;
    rewrite Z_mod_plus_full, Z.mod_small in Hlow by lia; lia.
Qed.

Lemma tracking_tail_digits :
  let tail := service_type_id imb ++ mailer_id imb ++ serial_num imb in
  length tail = 18%nat /\ forallb is_digit_char tail = true.
Proof.
  destruct standard_valid as [_ Hs Hm Hn _ _ _ _ Hms _], Hstd as [_ Hlen].
  cbn zeta. rewrite !length_app, !forallb_app.
  rewrite !isdigit_chars by assumption. split; [|reflexivity].
  destruct Hms as [(-> & -> & _)|(-> & -> & _)]; lia.
Qed.

(** A standard record has a tracking string of 20 digits (what C4 asks
    of every accepted record). *)
Lemma tracking_20_digits :
  length (tracking imb) = 20%nat /\ isdigit (tracking imb) = true.
Proof.
  destruct barcode_id_shape as (b0 & b1 & Eb & H0 & H1 & _).
  destruct tracking_tail_digits as [Hl Hd].
  unfold tracking. rewrite Eb. cbn [app length isdigit forallb].
  rewrite Hl, H0, H1, Hd. auto.
Qed.

(** The value step 1 computes. *)
Lemma binary_compose_value :
  exists rc b0 b1,
    routing_code imb = Ok rc /\ 0 <= rc <= 101000100000 /\
    barcode_id imb = [b0; b1] /\
    0 <= digit_val b0 <= 9 /\ 0 <= digit_val b1 <= 4 /\
    binary_compose imb =
    Ok (((rc * 10 + digit_val b0) * 5 + digit_val b1) * 10 ^ 18
        + decimal (service_type_id imb ++ mailer_id imb ++ serial_num imb)).
Proof.
  destruct (routing_code_range imb Hacc) as (rc & Erc & Hrc).
  destruct barcode_id_shape as (b0 & b1 & Eb & H0 & H1 & R0 & R1).
  destruct tracking_tail_digits as [Hl Hd].
  exists rc, b0, b1. repeat split; auto; try lia.
  unfold binary_compose, str_getitem, slice_from, tracking.
  rewrite Erc, Eb. cbn [bind app].
  rewrite getitem_cons_0. cbn [bind]. rewrite (int_char b0 H0). cbn [bind].
  rewrite getitem_cons_1. cbn [bind]. rewrite (int_char b1 H1). cbn [bind].
  cbn [drop]. rewrite drop_0, for_each_digits by exact Hd.
  unfold len. rewrite Hl. reflexivity.
Qed.

(** On a standard record the composed integer is below 2^103 (the
    bound C8 asks of every accepted record) and below the limit of the
    ten codewords. *)
Theorem rc_val_bound :
  exists rc_val,
    binary_compose imb = Ok rc_val /\
    0 <= rc_val < payload_limit /\ rc_val < 2 ^ 103.
Proof.
  destruct binary_compose_value
    as (rc & b0 & b1 & _ & Hrc & _ & R0 & R1 & ->).
  destruct tracking_tail_digits as [Hl Hd].
  apply decimal_range in Hd. unfold len in Hd. rewrite Hl in Hd.
  change (Z.of_nat 18) with 18 in Hd.
  eexists. split; [reflexivity|].
  unfold payload_limit.
  set (t := decimal _) in *. clearbody t.
  change (10 ^ 18) with 1000000000000000000 in *.
  change (659 * 636 * 1365 ^ 8) with 5051306733752184025300720312500.
  change (2 ^ 103) with 10141204801825835211973625643008.
  lia.
Qed.
End StandardRecord.

(** ** Codewords *)

Lemma div_range (a b c : Z) :
  0 < b -> 0 <= a < b * c -> 0 <= a / b < c.
Proof.
  intros Hb Ha. split.
  - apply Z.div_pos; lia.
  - apply Z.div_lt_upper_bound; lia.
Qed.

(** The quotient left after the nine divisions. *)
Lemma mixed_radix_quotient (rc_val : Z) :
  0 <= rc_val < payload_limit -> 0 <= fst (mixed_radix rc_val) <= 658.
Proof.
  intros H. unfold mixed_radix, divmod. cbn [fst].
  unfold payload_limit in H.
  enough (0 <= rc_val / 636 / 1365 / 1365 / 1365 / 1365 / 1365 / 1365
               / 1365 / 1365 < 659) by lia.
  do 8 (apply div_range; [lia|]).
  apply div_range; [lia|].
  replace (636 * (1365 * (1365 * (1365 * (1365 * (1365 * (1365 *
             (1365 * (1365 * 659)))))))))
    with (659 * 636 * 1365 ^ 8) by reflexivity.
  exact H.
Qed.

(** Whatever the composed integer, a run that passes the assertion of
    step 3 hands ten codewords in [0, 1364] to step 5. *)
Lemma codewords_range (rc_val fcs : Z) (cws : list Z) :
  codewords rc_val fcs = Ok cws ->
  length cws = 10%nat /\ Forall in_codeword_range cws.
Proof.
  unfold codewords, mixed_radix, divmod.
  destruct (between 0 _ 658) eqn:Ha; cbn [py_assert bind]; [|discriminate].
  apply between_spec in Ha. intros [= <-]. split; [reflexivity|].
  unfold in_codeword_range.
  repeat apply Forall_cons_2; try apply Forall_nil_2.
  all: repeat match goal with
       | |- context [?a mod ?b] =>
           let m := fresh "m" in
           pose proof (Z.mod_pos_bound a b ltac:(lia));
           set (m := a mod b) in *; clearbody m
       end.
  all: try destruct (negb _); lia.
Qed.

Lemma codewords_total (rc_val fcs : Z) :
  0 <= rc_val < payload_limit ->
  exists cws, codewords rc_val fcs = Ok cws.
Proof.
  intros H%mixed_radix_quotient. revert H.
  unfold codewords, mixed_radix, divmod. cbn [fst].
  intros H%between_spec. rewrite H. cbn [py_assert bind]. eauto.
Qed.

(** ** Characters and bars *)

Lemma setitem_Ok {A} (l : list A) (i : Z) (v : A) :
  0 <= i < len l -> setitem l i v = Ok (<[Z.to_nat i := v]> l).
Proof.
  intros Hi. unfold setitem, py_index.
  destruct (Z.leb_spec 0 i), (Z.ltb_spec i (len l)); try lia. reflexivity.
Qed.

(** Step 5, first loop: with codewords in range every lookup succeeds,
    nothing is printed and one character is appended per codeword. *)
Lemma char_loop_ok (lut5 lut2 cws : list Z) :
  length lut5 = 1287%nat -> length lut2 = 78%nat ->
  Forall in_codeword_range cws ->
  forall (char_list : list Z) (cw_char : option Z) (out : list str),
  exists chars,
    char_loop lut5 lut2 cws char_list cw_char out
    = (out, Ok (char_list ++ chars)) /\
    length chars = length cws.
Proof.
  intros H5 H2. induction 1 as [|cw cws [Hlo Hhi] _ IH]; intros acc last out.
  - exists []. now rewrite app_nil_r.
  - cbn [char_loop].
    destruct (Z.leb_spec cw 1286) as [Hcw|Hcw].
    + destruct (getitem_Ok lut5 cw) as (c & -> & _).
      { unfold len. lia. }
      cbn [bind]. destruct (IH (acc ++ [c]) (Some c) out) as (chars & -> & Hl).
      exists (c :: chars). rewrite <- app_assoc. cbn [length]. auto.
    + destruct (Z.leb_spec 1287 cw), (Z.leb_spec cw 1364); try lia.
      cbn [andb].
      destruct (getitem_Ok lut2 (cw - 1287)) as (c & -> & _).
      { unfold len. lia. }
      cbn [bind]. destruct (IH (acc ++ [c]) (Some c) out) as (chars & -> & Hl).
      exists (c :: chars). rewrite <- app_assoc. cbn [length]. auto.
Qed.

(** Step 5, second loop. *)
Lemma invert_loop_ok (fcs : Z) (idxs : list Z) :
  forall char_list : list Z,
  Forall (fun i => 0 <= i < len char_list) idxs ->
  exists l, for_each idxs (invert_step fcs) char_list = Ok l /\
            length l = length char_list.
Proof.
  induction idxs as [|i idxs IH]; intros l Hall.
  - exists l. auto.
  - apply Forall_cons_1 in Hall as [Hi Hall]. cbn [for_each].
    unfold invert_step at 1. destruct (negb _).
    + destruct (getitem_Ok l i Hi) as (c & -> & _). cbn [bind].
      rewrite setitem_Ok by exact Hi. cbn [bind].
      destruct (IH (<[Z.to_nat i := Z.lxor c 8191]> l)) as (l' & -> & Hl).
      { unfold len in *. now rewrite length_insert. }
      exists l'. now rewrite Hl, length_insert.
    + cbn [bind]. apply IH, Hall.
Qed.

Lemma bar_construction_table_ok :
  exists bar_table,
    _bar_construction_table = Ok bar_table /\
    length bar_table = 65%nat /\ forallb barmap_ok bar_table = true.
Proof. eexists. split; [vm_compute; reflexivity|]. split; reflexivity. Qed.

Lemma bar_step_ok (bar_table : list BarMap) (char_list : list Z)
    (enc_str : str) (i : Z) :
  forallb barmap_ok bar_table = true -> length char_list = 10%nat ->
  0 <= i < len bar_table ->
  exists c, bar_step bar_table char_list enc_str i = Ok (enc_str ++ [c]) /\
            bar_symbol c.
Proof.
  intros Hok Hlen Hi. unfold bar_step.
  destruct (getitem_Ok bar_table i Hi) as (bm & -> & Hbm). cbn [bind].
  rewrite forallb_forall in Hok.
  assert (Hb : barmap_ok bm = true).
  { apply Hok, list_elem_of_In, list_elem_of_lookup. eauto. }
  unfold barmap_ok in Hb.
  destruct (ord (asc_char bm)) as [a|]; [|discriminate].
  destruct (ord (desc_char bm)) as [d|]; [|discriminate].
  destruct (int (asc_bit bm)) as [ba|]; [|discriminate].
  destruct (int (desc_bit bm)) as [bd|]; [|discriminate].
  apply andb_true_iff in Hb as [[[Ha Hd]%andb_true_iff _]%andb_true_iff _].
  apply between_spec in Ha, Hd.
  change (ord (lit "A")) with (Ok (A := Z) 65). cbn [bind].
  destruct (getitem_Ok char_list (a - 65)) as (ca & -> & _).
  { unfold len. lia. }
  destruct (getitem_Ok char_list (d - 65)) as (cd & -> & _).
  { unfold len. lia. }
  cbn [bind]. unfold bar_symbol.
  destruct (negb (Z.land ca _ =? 0)), (negb (Z.land cd _ =? 0));
    cbn [andb]; eexists; (split; [reflexivity|]); auto.
Qed.

(** Step 6: one symbol per index. *)
Lemma bar_loop_ok (bar_table : list BarMap) (char_list : list Z)
    (idxs : list Z) :
  forallb barmap_ok bar_table = true -> length char_list = 10%nat ->
  Forall (fun i => 0 <= i < len bar_table) idxs ->
  forall enc_str : str,
  exists s, for_each idxs (bar_step bar_table char_list) enc_str
            = Ok (enc_str ++ s) /\
            length s = length idxs /\ Forall bar_symbol s.
Proof.
  intros Hok Hlen. induction 1 as [|i idxs Hi _ IH]; intros enc.
  - exists []. rewrite app_nil_r. auto.
  - cbn [for_each].
    destruct (bar_step_ok bar_table char_list enc i Hok Hlen Hi)
      as (c & -> & Hc).
    cbn [bind]. destruct (IH (enc ++ [c])) as (s & -> & Hl & Hs).
    exists (c :: s). rewrite <- app_assoc. cbn [length]. auto.
Qed.

Lemma range_below (n : Z) (k : Z) :
  n <= k -> Forall (fun i => 0 <= i < k) (range 0 n).
Proof.
  intros Hn. apply Forall_forall. intros i Hi%elem_of_range. lia.
Qed.

(** Steps 5 (second loop) and 6 on ten characters. *)
Lemma bars_ok (fcs : Z) (char_list : list Z) :
  length char_list = 10%nat ->
  exists s, bars fcs char_list = Ok s /\
            length s = 65%nat /\ Forall bar_symbol s.
Proof.
  intros Hlen. unfold bars.
  destruct bar_construction_table_ok as (tbl & -> & Ht & Hok).
  destruct (invert_loop_ok fcs (range 0 10) char_list) as (l & -> & Hl).
  { apply range_below. unfold len. lia. }
  cbn [bind].
  destruct (bar_loop_ok tbl l (range 0 65) Hok) with (enc_str := @nil ascii)
    as (s & -> & Hs & Hsym).
  { congruence. }
  { apply range_below. unfold len. lia. }
  exists s. rewrite length_range in Hs. auto.
Qed.

(** ** The encoder on standard records *)

Section Encode.
Variable imb : IntelligentMailBarcode.
Hypothesis Hacc : accepted imb.
Hypothesis Hstd : standard_widths imb.

(** On a standard record the quotient left by the divisions is in
    [0, 658], the assertion of step 3 holds and the ten codewords are
    in [0, 1364] (what C2 asks of every accepted record). *)
Theorem codewords_standard :
  exists rc_val cws,
    binary_compose imb = Ok rc_val /\
    0 <= fst (mixed_radix rc_val) <= 658 /\
    codewords rc_val (frame_check_sequence rc_val) = Ok cws /\
    length cws = 10%nat /\ Forall in_codeword_range cws.
Proof.
  destruct (rc_val_bound imb Hacc Hstd) as (rc_val & E & Hr & _).
  destruct (codewords_total rc_val (frame_check_sequence rc_val) Hr)
    as [cws Hc].
  exists rc_val, cws.
  pose proof (codewords_range _ _ _ Hc) as [? ?].
  auto using mixed_radix_quotient.
Qed.

(** On a standard record [encode] prints nothing and returns 65
    symbols among A, D, T, F (what C1 asks of every accepted record). *)
Theorem encode_standard :
  exists s, encode imb = ([], Ok s) /\
            length s = 65%nat /\ Forall bar_symbol s.
Proof.
  destruct codewords_standard as (rc_val & cws & E & _ & Hc & Hl & Hr).
  destruct lookup_table_fill_5 as (st5 & E5 & [[L5 _ _] _ _]).
  destruct lookup_table_fill_2 as (st2 & E2 & [[L2 _ _] _ _]).
  unfold encode, encode_codewords.
  rewrite (lookup_table_of_fill _ _ _ E5), (lookup_table_of_fill _ _ _ E2).
  rewrite E. cbn [bind]. rewrite Hc. cbn [bind].
  destruct (char_loop_ok (lut st5) (lut st2) cws L5 L2 Hr [] None [])
    as (chars & -> & Hchars).
  cbn [app bind].
  destruct (bars_ok (frame_check_sequence rc_val) chars) as (s & -> & Hs).
  { congruence. }
  exists s. auto.
Qed.
End Encode.

(** The sample of the USPS specification with an 11-digit routing code:
    the record is accepted, has the standard widths, and is encoded as
    published. *)
Example usps_sample :
  exists imb,
    from_t_and_r (lit "0123456709498765432101234567891") = Ok imb /\
    accepted imb /\ standard_widths imb /\
    encode imb =
    ([], Ok (lit
      "AADTFFDFTDADTAADAATFDTDDAAADDTDTTDAFADADDDTFFFDDTTTADFAAADFTDAADA")).
Proof.
  eexists. split; [vm_compute; reflexivity|].
  split; [vm_compute; reflexivity|].
  split; [split; reflexivity|].
  vm_compute. reflexivity.
Qed.

(** ** Splitting standard records *)

Lemma digit_val_9 (c : ascii) : digit_val c = 9 <-> c = "9"%char.
Proof.
  unfold digit_val. split; [|now intros ->].
  intros H. rewrite <- (ascii_N_embedding c).
  replace (N_of_ascii c) with 57%N by lia. reflexivity.
Qed.

Lemma str_eqb_char_9 (c : ascii) :
  str_eqb [c] (lit "9") = true <-> c = "9"%char.
Proof.
  cbn [str_eqb lit list_ascii_of_string]. rewrite andb_true_r.
  apply Ascii.eqb_eq.
Qed.

Section Split.
Variable imb : IntelligentMailBarcode.
Hypothesis Hacc : accepted imb.
Hypothesis Hstd : standard_widths imb.

(** The first digit of the mailer id tells its length. *)
Lemma mailer_id_first_digit :
  exists c rest,
    mailer_id imb = c :: rest /\
    (c = "9"%char <-> length (mailer_id imb) = 9%nat).
Proof.
  destruct (standard_valid imb Hacc) as [_ _ Hm _ _ _ _ _ Hms _].
  apply isdigit_forallb in Hm as [Hne Hm].
  destruct (mailer_id imb) as [|c rest]; [contradiction|].
  exists c, rest. split; [reflexivity|].
  cbn [forallb] in Hm. apply andb_true_iff in Hm as [Hc Hrest].
  apply digit_val_range in Hc. apply decimal_range in Hrest.
  rewrite decimal_cons in Hms. unfold len in *. cbn [length] in *.
  rewrite <- digit_val_9.
  destruct Hms as [(L & _ & R)|(L & _ & R)]; injection L as L;
    rewrite L in *; cbn [Z.of_nat Pos.of_succ_nat Pos.succ] in *;
    [change (10 ^ 8) with 100000000 in * | change (10 ^ 5) with 100000 in *];
    split; intros; try lia.
Qed.

(** On a standard record the character at offset 5 of the tracking
    string is the digit 9 exactly when the mailer id has 9 digits (what
    C9 asks of every accepted record). *)
Theorem offset_5_standard :
  str_getitem (tracking imb) 5 = Ok (lit "9") <->
  length (mailer_id imb) = 9%nat.
Proof.
  destruct mailer_id_first_digit as (c & rest & Em & <-).
  destruct Hstd as [Hb Hs]. unfold tracking. rewrite Em.
  destruct (barcode_id imb) as [|b0 [|b1 [|]]]; try discriminate Hb.
  destruct (service_type_id imb) as [|s0 [|s1 [|s2 [|]]]];
    try discriminate Hs.
  cbn [app]. unfold str_getitem.
  destruct (getitem_Ok (b0 :: b1 :: s0 :: s1 :: s2 :: c :: rest
                        ++ serial_num imb) 5) as (x & -> & [= <-]).
  { unfold len. cbn [length]. lia. }
  cbn [bind lit list_ascii_of_string]. split; [now intros [= ->] | now intros ->].
Qed.

(** Splitting the concatenation of the tracking and routing strings of
    a standard record gives the record back (what C3 asks of every
    accepted record). *)
Theorem split_standard :
  from_t_and_r (tracking imb ++ routing imb) = Ok imb.
Proof.
  pose proof offset_5_standard as H5.
  destruct (standard_valid imb Hacc) as [_ _ _ _ _ _ _ _ Hms _].
  destruct Hstd as [Hb Hs]. revert H5 Hacc.
  unfold accepted, tracking, routing, from_t_and_r.
  destruct imb as [b s m n z]. cbn [barcode_id service_type_id mailer_id
    serial_num deliv_zip] in *.
  destruct b as [|b0 [|b1 [|]]]; try discriminate Hb.
  destruct s as [|s0 [|s1 [|s2 [|]]]]; try discriminate Hs.
  destruct Hms as [(Lm & Ln & _)|(Lm & Ln & _)].
  - destruct m as [|m0 [|m1 [|m2 [|m3 [|m4 [|m5 [|m6 [|m7 [|m8 [|]]]]]]]]]];
      try discriminate Lm.
    destruct n as [|n0 [|n1 [|n2 [|n3 [|n4 [|n5 [|]]]]]]];
      try discriminate Ln.
    cbn [app slice take drop Nat.sub slice_from]. rewrite ?take_0, ?drop_0.
    intros ->%proj2; [|reflexivity].
    cbn [bind]. change (str_eqb (lit "9") (lit "9")) with true. cbn iota.
    cbn [take drop]. rewrite ?take_0, ?drop_0. auto.
  - destruct m as [|m0 [|m1 [|m2 [|m3 [|m4 [|m5 [|]]]]]]];
      try discriminate Lm.
    destruct n as [|n0 [|n1 [|n2 [|n3 [|n4 [|n5 [|n6 [|n7 [|n8 [|]]]]]]]]]];
      try discriminate Ln.
    cbn [app slice take drop Nat.sub slice_from]. rewrite ?take_0, ?drop_0.
    intros H5 Hinit.
    destruct (getitem_Ok (b0 :: b1 :: s0 :: s1 :: s2 :: m0 :: m1 :: m2
                :: m3 :: m4 :: m5 :: n0 :: n1 :: n2 :: n3 :: n4 :: n5
                :: n6 :: n7 :: n8 :: []) 5) as (x & Ex & [= <-]).
    { unfold len. cbn [length]. lia. }
    unfold str_getitem in *. rewrite Ex in *. cbn [bind] in *.
    destruct (str_eqb [m0] (lit "9")) eqn:E9.
    + apply str_eqb_char_9 in E9. subst m0.
      now specialize (proj1 H5 eq_refl).
    + cbn [take drop]. rewrite ?take_0, ?drop_0. exact Hinit.
Qed.
End Split.

(** ** Records whose fields do not have the standard widths

    The constructor bounds [barcode_id] and [service_type_id] by value
    only ([0..99], [0..999]); its assertion messages ask for two and three
    digits.  A one-digit or zero-padded field passes the checks and gives
    a tracking string that is not 20 characters long. *)

(** C4: the constructor accepts the barcode id "1" and the service type
    id "0000"; the tracking strings have 19 and 21 characters. *)
Theorem nonstandard_width_accepted :
  (exists imb,
     __init__ (lit "1") (lit "000") (lit "900000000") (lit "000000") []
     = Ok imb /\
     length (barcode_id imb) = 1%nat /\ length (tracking imb) = 19%nat) /\
  (exists imb,
     __init__ (lit "00") (lit "0000") (lit "900000000") (lit "000000") []
     = Ok imb /\
     length (service_type_id imb) = 4%nat /\
     length (tracking imb) = 21%nat).
Proof. split; eexists; (split; [vm_compute; reflexivity | evaluate]). Qed.

(** C1: on the accepted record with barcode id "000" [encode] returns no
    string: it raises the assertion of step 3. *)
Theorem encode_raises_on_wide_barcode_id :
  exists imb,
    __init__ (lit "000") (lit "999") (lit "999999999") (lit "999999")
             (lit "99999999999") = Ok imb /\
    encode imb =
    ([], Raise (AssertionError "Codeword conversion error during encoding")).
Proof.
  eexists. split; [vm_compute; reflexivity|]. vm_compute. reflexivity.
Qed.

(** C2: on the same record the quotient left by the nine divisions is
    6588, outside [0, 658], and the assertion on codeword A fails. *)
Theorem codeword_a_out_of_range :
  exists imb rc_val,
    __init__ (lit "000") (lit "999") (lit "999999999") (lit "999999")
             (lit "99999999999") = Ok imb /\
    binary_compose imb = Ok rc_val /\
    fst (mixed_radix rc_val) = 6588 /\
    codewords rc_val (frame_check_sequence rc_val) =
    Raise (AssertionError "Codeword conversion error during encoding").
Proof.
  eexists. eexists.
  split; [vm_compute; reflexivity|].
  split; [vm_compute; reflexivity|].
  split; vm_compute; reflexivity.
Qed.

(** C8: on the same record the composed integer is
    50500050000000999999999999999999, which is not below 2^103. *)
Theorem rc_val_exceeds_103_bits :
  exists imb,
    __init__ (lit "000") (lit "999") (lit "999999999") (lit "999999")
             (lit "99999999999") = Ok imb /\
    binary_compose imb = Ok 50500050000000999999999999999999 /\
    2 ^ 103 <= 50500050000000999999999999999999.
Proof.
  eexists. split; [vm_compute; reflexivity|].
  split; [vm_compute; reflexivity | evaluate].
Qed.

(** C3: the accepted record with barcode id "1" and service type id
    "0000" has a 20-character tracking string; splitting it succeeds and
    gives the barcode id "10" and the service type id "000". *)
Theorem split_changes_nonstandard_record :
  exists imb imb',
    __init__ (lit "1") (lit "0000") (lit "900000000") (lit "000000") []
    = Ok imb /\
    from_t_and_r (tracking imb ++ routing imb) = Ok imb' /\
    barcode_id imb = lit "1" /\ barcode_id imb' = lit "10" /\
    service_type_id imb = lit "0000" /\ service_type_id imb' = lit "000".
Proof.
  eexists. eexists.
  split; [vm_compute; reflexivity|].
  split; [vm_compute; reflexivity | evaluate].
Qed.

(** C9: in the accepted record with barcode id "1" the mailer id has 9
    digits and the character at offset 5 of the tracking string is "0". *)
Theorem offset_5_not_mailer_digit :
  exists imb,
    __init__ (lit "1") (lit "000") (lit "900000000") (lit "000000") []
    = Ok imb /\
    length (mailer_id imb) = 9%nat /\
    str_getitem (tracking imb) 5 = Ok (lit "0").
Proof. eexists. split; [vm_compute; reflexivity | evaluate]. Qed.

(** * Further properties *)

(** ** Bit reversal *)

(** The loop of [_reverse_unsigned_short] after [k] turns. *)
Lemma reverse_iter (u : Z) (k : nat) :
  let st := Nat.iter k reverse_step (0, u) in
  snd st = Z.shiftr u (Z.of_nat k) /\ 0 <= fst st /\
  forall i, 0 <= i ->
    Z.testbit (fst st) i
    = (i <? Z.of_nat k) && Z.testbit u (Z.of_nat k - 1 - i).
Proof.
  induction k as [|k IH].
  - cbn. repeat split; [lia|]. intros i Hi.
    rewrite Z.bits_0. destruct (Z.ltb_spec i (Z.of_nat 0)); [lia|reflexivity].
  - cbn zeta in *.
    change (Nat.iter (S k) reverse_step (0, u))
      with (reverse_step (Nat.iter k reverse_step (0, u))).
    destruct (Nat.iter k reverse_step (0, u)) as [r w].
    cbn [fst snd reverse_step] in *. destruct IH as (-> & Hr & Hbits).
    split; [|split].
    + rewrite Z.shiftr_shiftr by lia. f_equal. lia.
    + apply Z.lor_nonneg. split.
      * now apply Z.shiftl_nonneg.
      * apply Z.land_nonneg. lia.
    + intros i Hi. rewrite Z.lor_spec, Z.land_spec, Z.shiftl_spec by lia.
      rewrite Z.shiftr_spec by lia.
      destruct (Z.eq_dec i 0) as [->|Hne].
      * rewrite Z.testbit_neg_r by lia. cbn [orb].
        change (Z.testbit 1 0) with true. rewrite andb_true_r.
        destruct (Z.ltb_spec 0 (Z.of_nat (S k))); [|lia]. cbn [andb].
        f_equal. lia.
      * rewrite Hbits by lia.
        replace (Z.testbit 1 i) with false.
        2:{ symmetry. apply (Z.bits_above_log2 1 i); cbn; lia. }
        rewrite andb_false_r, orb_false_r.
        destruct (Z.ltb_spec (i - 1) (Z.of_nat k)),
          (Z.ltb_spec i (Z.of_nat (S k))); try lia; cbn [andb];
          try reflexivity; f_equal; lia.
Qed.

Lemma testbit_bound (r n : Z) :
  0 <= n -> 0 <= r -> (forall i, n <= i -> Z.testbit r i = false) ->
  r < 2 ^ n.
Proof.
  intros Hn Hr Hbits. destruct (Z.lt_ge_cases r (2 ^ n)) as [|Hge]; [easy|].
  assert (0 < r) by (pose proof (Z.pow_pos_nonneg 2 n); lia).
  assert (n <= Z.log2 r) by (apply Z.log2_le_pow2; lia).
  pose proof (Z.bit_log2 r ltac:(lia)) as Hb. rewrite Hbits in Hb by lia.
  discriminate.
Qed.

Lemma reverse_unsigned_short_bits (u i : Z) :
  0 <= i ->
  Z.testbit (_reverse_unsigned_short u) i
  = (i <? 16) && Z.testbit u (15 - i).
Proof.
  intros Hi. unfold _reverse_unsigned_short.
  destruct (reverse_iter u 16) as (_ & _ & Hbits).
  rewrite Hbits by lia. reflexivity.
Qed.

Lemma reverse_unsigned_short_range (u : Z) :
  0 <= _reverse_unsigned_short u < 65536.
Proof.
  split.
  - unfold _reverse_unsigned_short. apply (reverse_iter u 16).
  - apply (testbit_bound _ 16); [lia| |].
    + unfold _reverse_unsigned_short. apply (reverse_iter u 16).
    + intros i Hi. rewrite reverse_unsigned_short_bits by lia.
      destruct (Z.ltb_spec i 16); [lia|reflexivity].
Qed.

(** X1: [_reverse_unsigned_short] returns a 16-bit value whose bit [i] is
    bit [15 - i] of the argument, for every integer argument (bits above
    the sixteenth are dropped). *)
Theorem reverse_unsigned_short_mirror (ushort : Z) :
  0 <= _reverse_unsigned_short ushort < 65536 /\
  Forall (fun i => Z.testbit (_reverse_unsigned_short ushort) i
                   = Z.testbit ushort (15 - i)) (range 0 16).
Proof.
  split; [apply reverse_unsigned_short_range|].
  apply Forall_forall. intros i Hi%elem_of_range.
  rewrite reverse_unsigned_short_bits by lia.
  destruct (Z.ltb_spec i 16); [reflexivity|lia].
Qed.

Lemma testbit_above (a n i : Z) :
  0 <= a < 2 ^ n -> n <= i -> Z.testbit a i = false.
Proof.
  intros Ha Hi. destruct (Z.eq_dec a 0) as [->|Hne]; [apply Z.bits_0|].
  apply Z.bits_above_log2; [lia|].
  apply Z.lt_le_trans with n; [|lia]. apply Z.log2_lt_pow2; lia.
Qed.

Lemma bits_eq_bounded (a b n : Z) :
  0 <= a < 2 ^ n -> 0 <= b < 2 ^ n ->
  (forall i, 0 <= i < n -> Z.testbit a i = Z.testbit b i) -> a = b.
Proof.
  intros Ha Hb H. apply Z.bits_inj'. intros i Hi.
  destruct (Z.lt_ge_cases i n); [apply H; lia|].
  now rewrite (testbit_above a n i), (testbit_above b n i).
Qed.

(** X2: on 16-bit values [_reverse_unsigned_short] is its own inverse. *)
Theorem reverse_unsigned_short_involutive (ushort : Z) :
  0 <= ushort < 65536 ->
  _reverse_unsigned_short (_reverse_unsigned_short ushort) = ushort.
Proof.
  intros Hu. apply (bits_eq_bounded _ _ 16); [| lia |].
  - apply reverse_unsigned_short_range.
  - intros i Hi. rewrite !reverse_unsigned_short_bits by lia.
    destruct (Z.ltb_spec i 16), (Z.ltb_spec (15 - i) 16); try lia.
    cbn [andb]. f_equal. lia.
Qed.

Lemma reverse_unsigned_short_involutive_witness :
  0 <= 4660 < 65536 /\
  _reverse_unsigned_short (_reverse_unsigned_short 4660) = 4660.
Proof.
  split; [lia | apply reverse_unsigned_short_involutive; lia].
Defined.

(** The 13-bit reversal of the table builder. *)
Lemma rev13_bits (v i : Z) :
  0 <= i -> Z.testbit (rev13 v) i = (i <? 13) && Z.testbit v (12 - i).
Proof.
  intros Hi. unfold rev13. rewrite Z.shiftr_spec by lia.
  rewrite reverse_unsigned_short_bits by lia.
  destruct (Z.ltb_spec (i + 3) 16), (Z.ltb_spec i 13); try lia;
    cbn [andb]; try reflexivity; f_equal; lia.
Qed.

Lemma rev13_bound (v : Z) : 0 <= rev13 v < 8192.
Proof.
  pose proof (reverse_unsigned_short_range v) as [H0 H1]. unfold rev13.
  rewrite Z.shiftr_div_pow2 by lia. change (2 ^ 3) with 8. split.
  - apply Z.div_pos; lia.
  - apply Z.div_lt_upper_bound; lia.
Qed.

Lemma rev13_involutive (v : Z) : 0 <= v < 8192 -> rev13 (rev13 v) = v.
Proof.
  intros Hv. apply (bits_eq_bounded _ _ 13); [| lia |].
  - apply rev13_bound.
  - intros i Hi. rewrite !rev13_bits by lia.
    destruct (Z.ltb_spec i 13), (Z.ltb_spec (12 - i) 13); try lia.
    cbn [andb]. f_equal. lia.
Qed.

(** ** More on the lookup tables *)

(** The complement of a [k]-bit pattern within 13 bits has [13 - k] bits
    set. *)
Lemma pattern_complement (k : nat) (v : Z) :
  pattern k v -> pattern (13 - k) (Z.lxor v 0x1fff).
Proof.
  intros [Hv <-].
  assert (Hall : Forall (fun v =>
            0 <= Z.lxor v 8191 < 8192 /\
            length (set_bits (Z.lxor v 8191)) = (13 - length (set_bits v))%nat)
            (range 0 8192)).
  { refine (bool_decide_unpack _ _). vm_compute. exact I. }
  rewrite Forall_forall in Hall.
  exact (Hall v (proj2 (elem_of_range 0 8192 v) Hv)).
Qed.

Lemma patterns_count :
  length (filter (fun v => length (set_bits v) = 5%nat) (range 0 8192))
  = 1287%nat /\
  length (filter (fun v => length (set_bits v) = 2%nat) (range 0 8192))
  = 78%nat.
Proof. split; vm_compute; reflexivity. Qed.

(** A duplicate-free list of [k]-bit patterns that is as long as the
    list of all of them holds every one. *)
Lemma patterns_exhaustive (k : nat) (l : list Z) :
  NoDup l -> Forall (pattern k) l ->
  length (filter (fun v => length (set_bits v) = k) (range 0 8192))
  = length l ->
  forall v, v ∈ l <-> pattern k v.
Proof.
  intros Hnd Hpat Hlen v. rewrite Forall_forall in Hpat.
  split; [apply Hpat|]. intros [Hv Hk].
  set (all := filter (fun v => length (set_bits v) = k) (range 0 8192)) in *.
  assert (Hsub : l ⊆+ all).
  { apply NoDup_submseteq; [exact Hnd|]. intros x [Hx Hkx]%Hpat.
    apply list_elem_of_filter. split; [exact Hkx|]. now apply elem_of_range. }
  apply submseteq_length_Permutation in Hsub; [|lia].
  rewrite Hsub. apply list_elem_of_filter. split; [exact Hk|].
  now apply elem_of_range.
Qed.

(** X3: the table of 5-bit patterns holds every 13-bit value with exactly
    five bits set and nothing else, and the table of 2-bit patterns every
    13-bit value with exactly two bits set and nothing else. *)
Theorem lookup_tables_exhaustive :
  exists lut5 lut2,
    _lookup_table 5 1287 = Ok lut5 /\ _lookup_table 2 78 = Ok lut2 /\
    (forall v, v ∈ lut5 <-> pattern 5 v) /\
    (forall v, v ∈ lut2 <-> pattern 2 v).
Proof.
  destruct lookup_table_fill_5 as (st5 & E5 & [[L5 P5 N5] _ _]).
  destruct lookup_table_fill_2 as (st2 & E2 & [[L2 P2 N2] _ _]).
  destruct patterns_count as [C5 C2].
  exists (lut st5), (lut st2).
  split; [exact (lookup_table_of_fill _ _ _ E5)|].
  split; [exact (lookup_table_of_fill _ _ _ E2)|].
  split; apply patterns_exhaustive;
    [exact N5 | exact P5 | now rewrite L5 | exact N2 | exact P2
    | now rewrite L2].
Qed.

(** X4: complementing the 13 bits of an entry of either table (what step
    5 does to the characters the FCS selects) gives a 13-bit value with 8
    or 11 bits set, which is an entry of neither table. *)
Theorem inverted_character_not_in_tables :
  exists lut5 lut2,
    _lookup_table 5 1287 = Ok lut5 /\ _lookup_table 2 78 = Ok lut2 /\
    Forall (fun v => 0 <= Z.lxor v 0x1fff < 8192 /\
                     Z.lxor v 0x1fff ∉ lut5 ++ lut2) (lut5 ++ lut2).
Proof.
  destruct lookup_table_fill_5 as (st5 & E5 & [[L5 P5 N5] _ _]).
  destruct lookup_table_fill_2 as (st2 & E2 & [[L2 P2 N2] _ _]).
  exists (lut st5), (lut st2).
  split; [exact (lookup_table_of_fill _ _ _ E5)|].
  split; [exact (lookup_table_of_fill _ _ _ E2)|].
  rewrite Forall_forall in P5, P2. apply Forall_forall.
  intros v [Hv%P5|Hv%P2]%elem_of_app;
    apply pattern_complement in Hv as Hc; (split; [apply Hc|]);
    intros [Hw%P5|Hw%P2]%elem_of_app;
    destruct Hc as [_ Hc], Hw as [_ Hw]; rewrite Hc in Hw; discriminate Hw.
Qed.

Lemma lookup_table_fill_pairs :
  (exists st, lookup_table_fill 5 1287 = Ok st /\
     reversal_pairs (take (Z.to_nat (lut_lower st)) (lut st)) = true) /\
  (exists st, lookup_table_fill 2 78 = Ok st /\
     reversal_pairs (take (Z.to_nat (lut_lower st)) (lut st)) = true).
Proof.
  split; eexists; (split; [vm_compute; reflexivity|]); vm_compute; reflexivity.
Qed.

(** X5: the filling loop puts each value that differs from its reversal
    and the reversal itself into two consecutive slots, the smaller value
    first: the slots below the tail region, read two at a time, are
    (value, reversal) pairs, in both tables. *)
Theorem lookup_tables_adjacent_pairs :
  exists lut5 lut2,
    _lookup_table 5 1287 = Ok lut5 /\ _lookup_table 2 78 = Ok lut2 /\
    reversal_pairs (take 1272 lut5) = true /\
    reversal_pairs (take 72 lut2) = true.
Proof.
  destruct lookup_table_fill_5 as (st5 & E5 & [_ _ C5]).
  destruct lookup_table_fill_2 as (st2 & E2 & [_ _ C2]).
  destruct lookup_table_fill_pairs as [(s5 & F5 & H5) (s2 & F2 & H2)].
  rewrite E5 in F5. rewrite E2 in F2.
  injection F5 as <-. injection F2 as <-.
  rewrite C5 in H5. rewrite C2 in H2.
  exists (lut st5), (lut st2).
  split; [exact (lookup_table_of_fill _ _ _ E5)|].
  split; [exact (lookup_table_of_fill _ _ _ E2)|].
  split; assumption.
Qed.

Lemma lookup_table_bad_type (table_type length : Z) :
  table_type <> 2 -> table_type <> 5 ->
  _lookup_table table_type length
  = Raise (AssertionError "lookup_table type must be 2 or 5").
Proof.
  intros H2 H5. unfold _lookup_table, lookup_table_fill.
  destruct (Z.eqb_spec table_type 2), (Z.eqb_spec table_type 5); try lia.
  reflexivity.
Qed.

Lemma lookup_table_bad_length (table_type length : Z) :
  table_type = 2 \/ table_type = 5 -> length <> 78 -> length <> 1287 ->
  _lookup_table table_type length
  = Raise (AssertionError "lookup_table length must be 78 or 1279").
Proof.
  intros Ht H78 H1287. unfold _lookup_table, lookup_table_fill.
  destruct (Z.eqb_spec length 78), (Z.eqb_spec length 1287); try lia.
  destruct Ht as [-> | ->]; reflexivity.
Qed.

Lemma lookup_table_mixed :
  _lookup_table 5 78 = Raise IndexError /\
  exists l, _lookup_table 2 1287 = Ok l.
Proof.
  split; [vm_compute; reflexivity|].
  eexists. vm_compute. reflexivity.
Qed.

(** X6: the outcome of [_lookup_table] for every type and length.  The
    type assertion fails exactly for a type other than 2 and 5; the
    length assertion fails exactly for a type of 2 or 5 with a length
    other than 78 and 1287; the two assertions do not tie the length to
    the type, so the call with type 5 and length 78 overruns the array
    ([IndexError]) and the call with type 2 and length 1287 returns a
    list like the two regular calls. *)
Theorem lookup_table_outcomes (table_type length : Z) :
  (_lookup_table table_type length
   = Raise (AssertionError "lookup_table type must be 2 or 5")
   <-> table_type <> 2 /\ table_type <> 5) /\
  (_lookup_table table_type length
   = Raise (AssertionError "lookup_table length must be 78 or 1279")
   <-> (table_type = 2 \/ table_type = 5) /\
       length <> 78 /\ length <> 1287) /\
  (_lookup_table table_type length = Raise IndexError
   <-> table_type = 5 /\ length = 78) /\
  ((exists l, _lookup_table table_type length = Ok l)
   <-> (table_type = 2 /\ (length = 78 \/ length = 1287)) \/
       (table_type = 5 /\ length = 1287)).
Proof.
  destruct lookup_table_fill_5 as (st5 & E5%lookup_table_of_fill & _).
  destruct lookup_table_fill_2 as (st2 & E2%lookup_table_of_fill & _).
  destruct lookup_table_mixed as [E578 [l E21287]].
  assert (Hcase :
    forall outcome : result (list Z),
      _lookup_table table_type length = outcome ->
      (table_type = 2 \/ table_type = 5 -> length = 78 \/ length = 1287 ->
       match outcome with
       | Ok _ => ~ (table_type = 5 /\ length = 78)
       | Raise e => e = IndexError /\ table_type = 5 /\ length = 78
       end) ->
      (~ (table_type = 2 \/ table_type = 5) ->
       outcome = Raise (AssertionError "lookup_table type must be 2 or 5")) ->
      (table_type = 2 \/ table_type = 5 ->
       ~ (length = 78 \/ length = 1287) ->
       outcome
       = Raise (AssertionError "lookup_table length must be 78 or 1279")) ->
      (outcome = Raise (AssertionError "lookup_table type must be 2 or 5")
       <-> table_type <> 2 /\ table_type <> 5) /\
      (outcome
       = Raise (AssertionError "lookup_table length must be 78 or 1279")
       <-> (table_type = 2 \/ table_type = 5) /\
           length <> 78 /\ length <> 1287) /\
      (outcome = Raise IndexError <-> table_type = 5 /\ length = 78) /\
      ((exists l, outcome = Ok l)
       <-> (table_type = 2 /\ (length = 78 \/ length = 1287)) \/
           (table_type = 5 /\ length = 1287))).
  { clear. intros outcome _ Hgood Htype Hlength.
    destruct (Z.eq_dec table_type 2) as [T2 | T2];
      destruct (Z.eq_dec table_type 5) as [T5 | T5];
      destruct (Z.eq_dec length 78) as [L78 | L78];
      destruct (Z.eq_dec length 1287) as [L1287 | L1287];
      try lia.
    all: try (specialize (Htype ltac:(lia)); subst outcome);
      try (specialize (Hlength ltac:(lia) ltac:(lia)); subst outcome);
      try (specialize (Hgood ltac:(lia) ltac:(lia));
           destruct outcome as [v | e];
           [|destruct Hgood as (-> & ? & ?)]).
    all: repeat split; intros; try lia;
      repeat match goal with
             | H : exists _, _ |- _ => destruct H
             | H : _ = _ :> result _ |- _ => discriminate H
             end;
      try lia; eauto. }
  destruct (Hcase _ eq_refl) as (A & B & C & D).
  - intros [-> | ->] [-> | ->].
    + rewrite E2. lia.
    + rewrite E21287. lia.
    + rewrite E578. repeat split.
    + rewrite E5. lia.
  - intros H. apply lookup_table_bad_type; lia.
  - intros Ht Hl. apply lookup_table_bad_length; [exact Ht | lia | lia].
  - exact (conj A (conj B (conj C D))).
Qed.

(** ** The bar construction table *)

Lemma bar_construction_table_refs :
  exists bar_table,
    _bar_construction_table = Ok bar_table /\
    length bar_table = 65%nat /\ forallb barmap_ok bar_table = true /\
    NoDup (bar_refs bar_table) /\
    Forall (fun r => r ∈ character_bits) (bar_refs bar_table).
Proof.
  eexists. split; [vm_compute; reflexivity|].
  split; [reflexivity|]. split; [reflexivity|].
  split; refine (bool_decide_unpack _ _); vm_compute; exact I.
Qed.

Lemma length_bar_refs (bar_table : list BarMap) :
  length (bar_refs bar_table) = (2 * length bar_table)%nat.
Proof.
  induction bar_table as [|bm l IH]; [reflexivity|].
  unfold bar_refs in *. cbn [flat_map app length]. rewrite IH. lia.
Qed.

(** X7: the bar construction table has 65 entries and its 130 references
    (an ascender and a descender bit per bar) are the 13 bits of the ten
    characters A to J, each used exactly once. *)
Theorem bar_table_uses_each_bit_once :
  exists bar_table,
    _bar_construction_table = Ok bar_table /\
    length bar_table = 65%nat /\
    bar_refs bar_table ≡ₚ character_bits.
Proof.
  destruct bar_construction_table_refs as (tbl & E & L & _ & Hnd & Hin).
  exists tbl. split; [exact E|]. split; [exact L|].
  apply submseteq_length_Permutation.
  - apply NoDup_submseteq; [exact Hnd|]. now apply Forall_forall.
  - rewrite length_bar_refs, L. reflexivity.
Qed.

(** ** More on the constructor *)

(** X8: the constructor returns a record exactly when every field check
    holds (digits only, the barcode id at most 99 with a last digit at
    most 4, the service type at most 999, a 9-digit mailer id in
    [900000000, 999999999] with a 6-digit serial number or a 6-digit
    mailer id in [0, 899999] with a 9-digit serial number, a delivery zip
    of 0, 5, 9 or 11 digits), and the record then holds its five
    arguments unchanged. *)
Theorem constructor_accepts_iff (b s m n z : str)
    (r : IntelligentMailBarcode) :
  __init__ b s m n z = Ok r <->
  fields_valid b s m n z /\
  barcode_id r = b /\ service_type_id r = s /\ mailer_id r = m /\
  serial_num r = n /\ deliv_zip r = z.
Proof.
  rewrite init_Ok, fields_ok_valid. split.
  - intros [H ->]. auto 10.
  - intros (H & Hb & Hs & Hm & Hn & Hz). split; [exact H|].
    destruct r; cbn in *. congruence.
Qed.

Lemma init_outcomes (b s m n z : str) :
  (exists r, __init__ b s m n z = Ok r) \/
  (exists msg, __init__ b s m n z = Raise (AssertionError msg)).
Proof.
  unfold __init__, int.
  repeat match goal with
  | |- context [py_assert ?c _] =>
      destruct c eqn:?; cbn [py_assert bind]; [|right; eexists; reflexivity]
  | |- context [if ?c then _ else _] =>
      destruct c eqn:?; cbn [py_assert bind]
  end.
  all: first [left; eexists; reflexivity | right; eexists; reflexivity].
Qed.

(** X9: whatever the five strings, the constructor either returns a
    record, when the field checks hold, or raises [AssertionError], when
    one of them fails; no other exception escapes ([int] is never applied
    to a string that is not made of digits). *)
Theorem constructor_raises_only_assertion_error (b s m n z : str) :
  (fields_valid b s m n z /\ exists r, __init__ b s m n z = Ok r) \/
  (~ fields_valid b s m n z /\
   exists msg, __init__ b s m n z = Raise (AssertionError msg)).
Proof.
  destruct (init_outcomes b s m n z) as [[r Hr]|[msg Hm]].
  - left. split; [|eauto]. apply init_Ok in Hr as [Hr _].
    now apply fields_ok_valid.
  - right. split; [|eauto]. intros Hv%init_of_valid. congruence.
Qed.

(** ** More on the split *)

Lemma getitem_5 {A} (x0 x1 x2 x3 x4 x5 : A) (l : list A) :
  getitem (x0 :: x1 :: x2 :: x3 :: x4 :: x5 :: l) 5 = Ok x5.
Proof.
  destruct (getitem_Ok (x0 :: x1 :: x2 :: x3 :: x4 :: x5 :: l) 5)
    as (x & -> & [= ->]); [|reflexivity].
  unfold len. cbn [length]. lia.
Qed.

(** A split that succeeds was given at least 20 characters. *)
Lemma from_t_and_r_length (t : str) (imb : IntelligentMailBarcode) :
  from_t_and_r t = Ok imb -> (20 <= length t)%nat.
Proof.
  unfold from_t_and_r. destruct (str_getitem _ 5); [|discriminate].
  cbn [bind].
  destruct (str_eqb _ _); intros [Hv _]%init_Ok;
    apply fields_ok_valid in Hv as [_ _ _ _ _ _ _ _ Hms _];
    rewrite !length_slice in Hms; lia.
Qed.

Lemma from_t_and_r_inverse (t : str) (imb : IntelligentMailBarcode) :
  from_t_and_r t = Ok imb ->
  tracking imb ++ routing imb = t /\ accepted imb /\ standard_widths imb.
Proof.
  intros H. pose proof (from_t_and_r_length t imb H) as Hlen.
  do 20 (destruct t as [|? t]; [cbn [length] in Hlen; lia|]). clear Hlen.
  unfold from_t_and_r, str_getitem in H.
  cbn [slice slice_from take drop Nat.sub] in H.
  rewrite ?take_0, ?drop_0 in H. rewrite getitem_5 in H. cbn [bind] in H.
  destruct (str_eqb _ _);
    cbn [take drop] in H; rewrite ?take_0, ?drop_0 in H;
    pose proof (init_accepted _ _ _ _ _ _ H) as Hacc;
    apply init_fields in H as (Hb & Hs & Hm & Hn & Hz);
    unfold tracking, routing, standard_widths;
    rewrite Hb, Hs, Hm, Hn, Hz; auto.
Qed.

(** X10: when the split of a string succeeds, the record it returns is
    one the constructor accepts, its barcode id has 2 and its service
    type id 3 characters, and concatenating its tracking and routing
    strings gives the input back (20, 25, 29 or 31 digits). *)
Theorem split_then_concatenate (t : str) (imb : IntelligentMailBarcode) :
  from_t_and_r t = Ok imb ->
  __str__ imb = t /\ accepted imb /\ standard_widths imb /\
  isdigit t = true /\
  (length t = 20 \/ length t = 25 \/ length t = 29 \/ length t = 31)%nat.
Proof.
  intros H. destruct (from_t_and_r_inverse t imb H) as (E & Hacc & Hstd).
  split; [exact E|]. split; [exact Hacc|]. split; [exact Hstd|].
  destruct (tracking_20_digits imb Hacc Hstd) as [Ht Hd].
  destruct (standard_valid imb Hacc) as [_ _ _ _ Hz _ _ _ _ Hzl].
  rewrite <- E. unfold routing. split.
  - apply isdigit_forallb. split.
    + intros Hnil. apply (f_equal length) in Hnil.
      rewrite length_app, Ht in Hnil. discriminate Hnil.
    + rewrite forallb_app, (isdigit_chars _ Hd).
      destruct Hz as [Hz| ->]; [now rewrite (isdigit_chars _ Hz)|reflexivity].
  - rewrite length_app, Ht. lia.
Qed.

Lemma split_then_concatenate_witness :
  exists imb,
    from_t_and_r (lit "0123456709498765432101234") = Ok imb /\
    __str__ imb = lit "0123456709498765432101234".
Proof.
  eexists. split; [vm_compute; reflexivity|].
  eapply split_then_concatenate. vm_compute. reflexivity.
Defined.

Lemma from_t_and_r_outcomes (t : str) :
  ((length t < 6)%nat /\ from_t_and_r t = Raise IndexError) \/
  ((6 <= length t)%nat /\
   ((exists imb, from_t_and_r t = Ok imb) \/
    (exists msg, from_t_and_r t = Raise (AssertionError msg)))).
Proof.
  destruct (Nat.lt_ge_cases (length t) 6) as [Hlt|Hge].
  - left. split; [exact Hlt|]. unfold from_t_and_r, str_getitem.
    rewrite getitem_out_of_range; [reflexivity|].
    unfold len. rewrite length_slice. lia.
  - right. split; [exact Hge|]. unfold from_t_and_r, str_getitem.
    destruct (getitem_Ok (slice t 0 20) 5) as (c & -> & _).
    { unfold len. rewrite length_slice. lia. }
    cbn [bind]. destruct (str_eqb _ _); apply init_outcomes.
Qed.

(** X11: the split raises [IndexError] exactly on strings of fewer than 6
    characters; on any longer string it either returns a record or raises
    an [AssertionError] of the constructor. *)
Theorem split_outcomes (t : str) :
  (from_t_and_r t = Raise IndexError <-> (length t < 6)%nat) /\
  ((exists imb, from_t_and_r t = Ok imb) \/
   (exists msg, from_t_and_r t = Raise (AssertionError msg)) \/
   from_t_and_r t = Raise IndexError).
Proof.
  destruct (from_t_and_r_outcomes t)
    as [[Hlt E]|[Hge [[imb E]|[msg E]]]]; rewrite E.
  - split; [tauto|auto].
  - split; [|eauto]. split; [discriminate|lia].
  - split; [|eauto]. split; [discriminate|lia].
Qed.

(** X12: for a record the constructor accepts whose barcode id has 2 and
    service type id 3 characters, splitting its string form gives the
    record back. *)
Theorem concatenate_then_split (imb : IntelligentMailBarcode) :
  accepted imb -> standard_widths imb ->
  from_t_and_r (__str__ imb) = Ok imb.
Proof. intros Hacc Hstd. unfold __str__. now apply split_standard. Qed.

Lemma concatenate_then_split_witness :
  exists imb,
    __init__ (lit "01") (lit "234") (lit "567094") (lit "987654321")
             (lit "01234") = Ok imb /\
    from_t_and_r (__str__ imb) = Ok imb.
Proof.
  eexists. split; [vm_compute; reflexivity|].
  apply concatenate_then_split; [vm_compute; reflexivity | split; reflexivity].
Defined.

(** ** Frame check sequence and codewords *)

Lemma fcs_step_range (st : Z * Z) : 0 <= fst (fcs_step st) < 2048.
Proof.
  destruct st as [fcs data]. unfold fcs_step. cbn [fst].
  change 0x7ff with (Z.ones 11). rewrite Z.land_ones by lia.
  apply Z.mod_pos_bound. lia.
Qed.

Lemma fcs_byte_range (rc_val fcs k : Z) : 0 <= fcs_byte rc_val fcs k < 2048.
Proof.
  unfold fcs_byte.
  change (Nat.iter 8 fcs_step ?x) with (fcs_step (Nat.iter 7 fcs_step x)).
  apply fcs_step_range.
Qed.

(** X13: the frame check sequence is an 11-bit value, whatever the
    integer it is computed from. *)
Theorem frame_check_sequence_11_bits (rc_val : Z) :
  0 <= frame_check_sequence rc_val < 2 ^ 11.
Proof.
  unfold frame_check_sequence.
  change (range 1 13) with (range 1 12 ++ [12]).
  rewrite fold_left_app. cbn [fold_left]. apply fcs_byte_range.
Qed.

Lemma mixed_radix_recompose (rc_val : Z) :
  match mixed_radix rc_val with
  | (q, cws) =>
      fold_left (fun acc cw => acc * 1365 + cw) (List.removelast cws) q * 636
      + List.last cws 0 = rc_val /\
      0 <= List.last cws 0 < 636
  end.
Proof.
  unfold mixed_radix, divmod. cbn [List.removelast List.last fold_left].
  split; [|apply Z.mod_pos_bound; lia].
  repeat match goal with
  | |- context [?a mod ?b] =>
      let q := fresh "q" in let r := fresh "r" in
      pose proof (Z.div_mod a b ltac:(lia));
      set (r := a mod b) in *; clearbody r
  end.
  repeat match goal with
  | |- context [?a / ?b] =>
      lazymatch a with
      | context [_ / _] => fail
      | _ => let q := fresh "q" in set (q := a / b) in *; clearbody q
      end
  end.
  lia.
Qed.

Lemma codewords_payload (rc_val fcs : Z) (cws : list Z) :
  codewords rc_val fcs = Ok cws -> payload_of_codewords cws = rc_val.
Proof.
  pose proof (mixed_radix_recompose rc_val) as Hrec.
  unfold codewords. destruct (mixed_radix rc_val) as [q l].
  do 9 (destruct l as [|? l]; try discriminate).
  destruct l; [|discriminate].
  destruct (between 0 q 658) eqn:Hq; cbn [py_assert bind]; [|discriminate].
  apply between_spec in Hq. intros [= <-].
  cbn [List.removelast List.last fold_left] in Hrec.
  destruct Hrec as [Hrec Hj].
  unfold payload_of_codewords. cbn [fold_left].
  rewrite Z.div_mul by lia.
  replace ((if negb (Z.land (Z.shiftr fcs 10) 1 =? 0) then q + 659 else q)
           mod 659) with q; [exact Hrec|].
  destruct (negb _).
  - replace (q + 659) with (q + 1 * 659) by lia.
    rewrite Z_mod_plus_full, Z.mod_small; lia.
  - rewrite Z.mod_small; lia.
Qed.

(** X14: steps 3 and 4 lose nothing: when they succeed, the composed
    integer is read back from the ten codewords (codeword A modulo 659,
    the codewords B to I in base 1365, half of codeword J in base 636),
    and codeword A is 659 or more exactly when bit 10 of the FCS is
    set. *)
Theorem codewords_determine_payload (rc_val fcs : Z) (cws : list Z) :
  codewords rc_val fcs = Ok cws ->
  payload_of_codewords cws = rc_val /\
  exists cw_a rest, cws = cw_a :: rest /\
    (659 <= cw_a <-> Z.testbit fcs 10 = true).
Proof.
  intros H. split; [exact (codewords_payload _ _ _ H)|].
  revert H. unfold codewords. destruct (mixed_radix rc_val) as [q l].
  do 9 (destruct l as [|? l]; try discriminate).
  destruct l; [|discriminate].
  destruct (between 0 q 658) eqn:Hq; cbn [py_assert bind]; [|discriminate].
  apply between_spec in Hq. intros [= <-].
  assert (Hbit : Z.land (Z.shiftr fcs 10) 1 = Z.b2z (Z.testbit fcs 10)).
  { change 1 with (Z.ones 1). rewrite Z.land_ones by lia.
    change (2 ^ 1) with 2. rewrite <- Z.bit0_mod, Z.shiftr_spec by lia.
    reflexivity. }
  eexists _, _. split; [reflexivity|]. rewrite Hbit.
  destruct (Z.testbit fcs 10); cbn [Z.b2z Z.eqb negb]; split; intros; try lia;
    try reflexivity; try discriminate.
Qed.

Lemma codewords_determine_payload_witness :
  exists cws,
    codewords 1234567890123456789012345 2047 = Ok cws /\
    payload_of_codewords cws = 1234567890123456789012345.
Proof.
  eexists. split; [vm_compute; reflexivity|].
  refine (proj1 (codewords_determine_payload
                  1234567890123456789012345 2047 _ _)).
  vm_compute. reflexivity.
Defined.

(** ** The encoder on any record *)

(** Step 5, first loop, in closed form. *)
Lemma char_loop_map (lut5 lut2 cws : list Z) :
  length lut5 = 1287%nat -> length lut2 = 78%nat ->
  Forall in_codeword_range cws ->
  forall (char_list : list Z) (cw_char : option Z) (out : list str),
    char_loop lut5 lut2 cws char_list cw_char out
    = (out, Ok (char_list ++ map (character_of lut5 lut2) cws)).
Proof.
  intros H5 H2. induction 1 as [|cw cws [Hlo Hhi] _ IH]; intros acc last out.
  - cbn. now rewrite app_nil_r.
  - cbn [char_loop map]. unfold character_of at 1.
    destruct (Z.leb_spec cw 1286) as [Hcw|Hcw].
    + destruct (getitem_Ok lut5 cw) as (c & -> & Hc).
      { unfold len. lia. }
      cbn [bind]. rewrite IH, <- app_assoc.
      rewrite lookup_app_l, Hc by lia. reflexivity.
    + destruct (Z.leb_spec 1287 cw), (Z.leb_spec cw 1364); try lia.
      cbn [andb].
      destruct (getitem_Ok lut2 (cw - 1287)) as (c & -> & Hc).
      { unfold len. lia. }
      cbn [bind]. rewrite IH, <- app_assoc.
      rewrite lookup_app_r by lia.
      replace (Z.to_nat cw - length lut5)%nat with (Z.to_nat (cw - 1287))
        by lia.
      rewrite Hc. reflexivity.
Qed.

(** What [encode] does once the codewords are there. *)
Lemma encode_of_codewords (imb : IntelligentMailBarcode) (rc_val : Z)
    (cws : list Z) :
  binary_compose imb = Ok rc_val ->
  codewords rc_val (frame_check_sequence rc_val) = Ok cws ->
  exists lut5 lut2 s,
    _lookup_table 5 1287 = Ok lut5 /\ _lookup_table 2 78 = Ok lut2 /\
    bars (frame_check_sequence rc_val) (map (character_of lut5 lut2) cws)
    = Ok s /\
    encode imb = ([], Ok s) /\ length s = 65%nat /\ Forall bar_symbol s.
Proof.
  intros E Hc.
  destruct lookup_table_fill_5 as (st5 & E5 & [[L5 _ _] _ _]).
  destruct lookup_table_fill_2 as (st2 & E2 & [[L2 _ _] _ _]).
  destruct (codewords_range _ _ _ Hc) as [Hl Hr].
  destruct (bars_ok (frame_check_sequence rc_val)
              (map (character_of (lut st5) (lut st2)) cws)) as (s & Hs & Hs').
  { now rewrite length_map. }
  exists (lut st5), (lut st2), s.
  split; [exact (lookup_table_of_fill _ _ _ E5)|].
  split; [exact (lookup_table_of_fill _ _ _ E2)|].
  split; [exact Hs|]. split; [|exact Hs'].
  unfold encode, encode_codewords.
  rewrite (lookup_table_of_fill _ _ _ E5), (lookup_table_of_fill _ _ _ E2).
  rewrite E. cbn [bind]. rewrite Hc. cbn [bind].
  rewrite (char_loop_map _ _ _ L5 L2 Hr). cbn [app bind]. now rewrite Hs.
Qed.


Lemma encode_raises_codewords (imb : IntelligentMailBarcode) (rc_val : Z)
    (e : exn) :
  binary_compose imb = Ok rc_val ->
  codewords rc_val (frame_check_sequence rc_val) = Raise e ->
  encode imb = ([], Raise e).
Proof.
  intros E Hc. unfold encode, encode_codewords.
  rewrite E. cbn [bind]. rewrite Hc. reflexivity.
Qed.


(** Step 1 on an accepted record of any width. *)
Lemma binary_compose_accepted (imb : IntelligentMailBarcode) :
  accepted imb -> exists rc_val, binary_compose imb = Ok rc_val /\ 0 <= rc_val.
Proof.
  intros Hacc.
  destruct (routing_code_range imb Hacc) as (rc & Erc & Hrc).
  destruct (standard_valid imb Hacc) as [Hb Hs Hm Hn _ _ _ _ _ _].
  assert (Hd : forallb is_digit_char (tracking imb) = true).
  { unfold tracking. rewrite !forallb_app.
    now rewrite !isdigit_chars by assumption. }
  assert (Hl : (2 <= length (tracking imb))%nat).
  { unfold tracking. rewrite !length_app.
    apply isdigit_forallb in Hb as [Hb _], Hs as [Hs _].
    destruct (barcode_id imb), (service_type_id imb); cbn [length];
      try contradiction; lia. }
  unfold binary_compose, str_getitem, slice_from. rewrite Erc.
  destruct (tracking imb) as [|c0 [|c1 rest]];
    try (cbn [length] in Hl; lia).
  cbn [forallb] in Hd.
  apply andb_true_iff in Hd as [H0 [H1 Hrest]%andb_true_iff].
  cbn [bind]. rewrite getitem_cons_0. cbn [bind].
  rewrite (int_char c0 H0). cbn [bind].
  rewrite getitem_cons_1. cbn [bind]. rewrite (int_char c1 H1). cbn [bind].
  cbn [drop]. rewrite drop_0, for_each_digits by exact Hrest.
  eexists. split; [reflexivity|].
  apply digit_val_range in H0, H1. apply decimal_range in Hrest.
  assert (0 < 10 ^ len rest) by (apply Z.pow_pos_nonneg; unfold len; lia).
  nia.
Qed.

(** X16: on a record the constructor accepts, whatever the widths of its
    fields, step 1 succeeds with a non-negative integer, and [encode]
    returns 65 symbols when that integer is below 659 * 636 * 1365^8 and
    raises the assertion of step 3 otherwise. *)
Theorem encode_accepted (imb : IntelligentMailBarcode) :
  accepted imb ->
  exists rc_val,
    binary_compose imb = Ok rc_val /\ 0 <= rc_val /\
    ((rc_val < payload_limit /\
      exists s, encode imb = ([], Ok s) /\
                length s = 65%nat /\ Forall bar_symbol s) \/
     (payload_limit <= rc_val /\
      encode imb =
      ([], Raise (AssertionError
                    "Codeword conversion error during encoding")))).
Proof.
  intros Hacc.
  destruct (binary_compose_accepted imb Hacc) as (rc & E & Hrc).
  exists rc. split; [exact E|]. split; [exact Hrc|].
  destruct (Z.lt_ge_cases rc payload_limit) as [Hlt|Hge].
  - left. split; [exact Hlt|].
    destruct (codewords_total rc (frame_check_sequence rc)) as [cws Hc];
      [lia|].
    destruct (encode_of_codewords imb rc cws E Hc)
      as (_ & _ & s & _ & _ & _ & Hs). eauto.
  - right. split; [exact Hge|].
    assert (Hq : 659 <= fst (mixed_radix rc)).
    { unfold mixed_radix, divmod. cbn [fst]. unfold payload_limit in Hge.
      do 8 (apply Z.div_le_lower_bound; [lia|]).
      apply Z.div_le_lower_bound; [lia|].
      replace (636 * (1365 * (1365 * (1365 * (1365 * (1365 * (1365 *
                 (1365 * (1365 * 659)))))))))
        with (659 * 636 * 1365 ^ 8) by reflexivity.
      exact Hge. }
    apply (encode_raises_codewords imb rc _ E).
    revert Hq. unfold codewords, mixed_radix, divmod. cbn [fst]. intros Hq.
    destruct (between 0 _ 658) eqn:Hb; [apply between_spec in Hb; lia|].
    reflexivity.
Qed.

Lemma encode_accepted_witness :
  exists imb rc_val,
    __init__ (lit "1") (lit "000") (lit "900000000") (lit "000000") []
    = Ok imb /\
    binary_compose imb = Ok rc_val /\ 0 <= rc_val.
Proof.
  eexists. 
  assert (H : accepted
                {| barcode_id := lit "1"; service_type_id := lit "000";
                   mailer_id := lit "900000000";
                   serial_num := lit "000000"; deliv_zip := [] |})
    by (vm_compute; reflexivity).
  destruct (encode_accepted _ H) as (rc & E & Hrc & _).
  exists rc. split; [vm_compute; reflexivity|]. split; assumption.
Defined.

(** X17: on an accepted record whose barcode id has 2 and service type id
    3 characters the composed integer is below 659 * 636 * 1365^8, hence
    below 2^102 (the bits the FCS reads), and [encode] returns 65 symbols
    among A, D, T, F without printing. *)
Theorem encode_standard_record (imb : IntelligentMailBarcode) :
  accepted imb -> standard_widths imb ->
  exists rc_val s,
    binary_compose imb = Ok rc_val /\
    0 <= rc_val < payload_limit /\ payload_limit < 2 ^ 102 /\
    encode imb = ([], Ok s) /\ length s = 65%nat /\ Forall bar_symbol s.
Proof.
  intros Hacc Hstd.
  destruct (rc_val_bound imb Hacc Hstd) as (rc & E & Hr & _).
  destruct (encode_standard imb Hacc Hstd) as (s & Hs).
  exists rc, s. split; [exact E|]. split; [exact Hr|].
  split; [reflexivity | exact Hs].
Qed.

Lemma encode_standard_record_witness :
  exists imb s,
    from_t_and_r (lit "01234567094987654321") = Ok imb /\
    encode imb = ([], Ok s) /\ length s = 65%nat.
Proof.
  eexists.
  assert (H : accepted
                {| barcode_id := lit "01"; service_type_id := lit "234";
                   mailer_id := lit "567094";
                   serial_num := lit "987654321"; deliv_zip := [] |})
    by (vm_compute; reflexivity).
  destruct (encode_standard_record _ H) as (rc & s & _ & _ & _ & Hs & Hl & _);
    [split; reflexivity|].
  exists s. split; [vm_compute; reflexivity|]. split; assumption.
Defined.

(** ** The command line *)

Lemma py_set_eq (a b : str) :
  py_set a = py_set b <-> forall c, c ∈ a <-> c ∈ b.
Proof.
  unfold py_set. rewrite set_eq.
  now setoid_rewrite elem_of_list_to_set.
Qed.

Lemma bar_symbol_in (c : ascii) : bar_symbol c <-> c ∈ lit "ADTF".
Proof.
  rewrite list_elem_of_In. unfold bar_symbol. cbn. intuition congruence.
Qed.


Lemma main_step_decode (t : str) :
  py_set (lit "ADTF") = py_set t ->
  main_step t = ([lit "Not implemented"], Ok tt).
Proof.
  intros H. unfold main_step. now rewrite bool_decide_eq_true_2.
Qed.

Lemma main_step_encode (t : str) :
  py_set (lit "ADTF") <> py_set t ->
  (exists imb s, from_t_and_r t = Ok imb /\ encode imb = ([], Ok s) /\
     main_step t = ([s], Ok tt) /\ encoded_line s) \/
  (exists e, from_t_and_r t = Raise e /\ main_step t = ([], Raise e) /\
     (e = IndexError \/ exists msg, e = AssertionError msg)).
Proof.
  intros H. unfold main_step. rewrite bool_decide_eq_false_2 by exact H.
  destruct (from_t_and_r_outcomes t) as [[_ E]|[_ [[imb E]|[msg E]]]].
  - right. rewrite E. eauto 6.
  - left. destruct (from_t_and_r_inverse t imb E) as (_ & Hacc & Hstd).
    destruct (encode_standard imb Hacc Hstd) as (s & Hs & Hl).
    exists imb, s. rewrite E, Hs. auto.
  - right. rewrite E. eauto 8.
Qed.

(** X18: a record returned by the split is always encoded: for every
    string the split accepts, [encode] returns 65 symbols among A, D, T,
    F and never reaches the assertion of step 3. *)
Theorem split_then_encode (t : str) (imb : IntelligentMailBarcode) :
  from_t_and_r t = Ok imb ->
  exists s, encode imb = ([], Ok s) /\ encoded_line s.
Proof.
  intros E. destruct (from_t_and_r_inverse t imb E) as (_ & Hacc & Hstd).
  destruct (encode_standard imb Hacc Hstd) as (s & Hs & Hl). eauto.
Qed.

Lemma split_then_encode_witness :
  exists imb s,
    from_t_and_r (lit "01234567094987654321012345678") = Ok imb /\
    encode imb = ([], Ok s) /\ encoded_line s.
Proof.
  eexists.
  destruct (split_then_encode (lit "01234567094987654321012345678")
              {| barcode_id := lit "01"; service_type_id := lit "234";
                 mailer_id := lit "567094"; serial_num := lit "987654321";
                 deliv_zip := lit "012345678" |}) as (s & Hs);
    [vm_compute; reflexivity|].
  exists s. split; [vm_compute; reflexivity | exact Hs].
Defined.

(** X19: one argument of the command line gives one of three outcomes:
    the line "Not implemented" when its characters are exactly A, D, T
    and F; one encoded line when the split accepts it; and otherwise
    nothing printed and the [IndexError] or [AssertionError] of the
    split.  The assertion inside [encode] is never raised. *)
Theorem main_step_outcomes (t : str) :
  (py_set (lit "ADTF") = py_set t /\
   main_step t = ([lit "Not implemented"], Ok tt)) \/
  (py_set (lit "ADTF") <> py_set t /\
   exists imb s, from_t_and_r t = Ok imb /\
     main_step t = ([s], Ok tt) /\ encoded_line s) \/
  (py_set (lit "ADTF") <> py_set t /\
   exists e, from_t_and_r t = Raise e /\ main_step t = ([], Raise e) /\
     (e = IndexError \/ exists msg, e = AssertionError msg)).
Proof.
  destruct (decide (py_set (lit "ADTF") = py_set t)) as [H|H].
  - left. auto using main_step_decode.
  - right. destruct (main_step_encode t H)
      as [(imb & s & E & _ & Hm & Hs)|(e & E & Hm & He)]; [left|right];
      eauto 8.
Qed.

(** X20: a string of at least 6 symbols among A, D, T, F is answered
    "Not implemented" when all four symbols occur in it; when one of them
    is missing it is taken for tracking data and the constructor raises
    its first assertion. *)
Theorem main_step_on_symbols (t : str) :
  Forall bar_symbol t -> (6 <= length t)%nat ->
  (Forall (fun c => c ∈ t) (lit "ADTF") /\
   main_step t = ([lit "Not implemented"], Ok tt)) \/
  (~ Forall (fun c => c ∈ t) (lit "ADTF") /\
   main_step t = ([], Raise (AssertionError ""))).
Proof.
  intros Hsym Hlen.
  assert (Hiff : py_set (lit "ADTF") = py_set t
                 <-> Forall (fun c => c ∈ t) (lit "ADTF")).
  { rewrite py_set_eq, Forall_forall. split.
    - intros H c Hc. now apply H.
    - intros H c. split; [apply H|]. intros Hc.
      rewrite Forall_forall in Hsym. now apply bar_symbol_in, Hsym. }
  destruct (decide (py_set (lit "ADTF") = py_set t)) as [H|H].
  - left. split; [now apply Hiff | now apply main_step_decode].
  - right. split; [now rewrite <- Hiff|].
    unfold main_step. rewrite bool_decide_eq_false_2 by exact H.
    do 6 (destruct t as [|? t]; [cbn [length] in Hlen; lia|]).
    unfold from_t_and_r, str_getitem.
    destruct (getitem_Ok (slice (a :: a0 :: a1 :: a2 :: a3 :: a4 :: t) 0 20) 5)
      as (c & -> & _).
    { unfold len. rewrite length_slice. cbn [length]. lia. }
    cbn [bind].
    assert (Ha : is_digit_char a = false).
    { apply Forall_cons_1 in Hsym as [[-> | [-> | [-> | ->]]] _]; reflexivity. }
    destruct (str_eqb _ _); unfold __init__, slice;
      cbn [take drop Nat.sub isdigit forallb]; rewrite Ha; reflexivity.
Qed.

Lemma main_step_on_symbols_witness :
  main_step (lit "ADTFAD") = ([lit "Not implemented"], Ok tt) /\
  main_step (lit "ADTADT") = ([], Raise (AssertionError "")).
Proof.
  assert (Hdec : forall l : str,
            bool_decide (Forall (fun c => c ∈ lit "ADTF") l) = true ->
            Forall bar_symbol l).
  { intros l H%bool_decide_eq_true_1. apply Forall_forall. intros c Hc.
    rewrite Forall_forall in H. now apply bar_symbol_in, H. }
  split.
  - destruct (main_step_on_symbols (lit "ADTFAD")) as [[_ H]|[Hn _]];
      [now apply Hdec | cbn; lia | exact H |].
    exfalso. apply Hn. refine (bool_decide_unpack _ _). vm_compute. exact I.
  - destruct (main_step_on_symbols (lit "ADTADT")) as [[Hy _]|[_ H]];
      [now apply Hdec | cbn; lia | | exact H].
    exfalso. revert Hy. refine (bool_decide_unpack _ _). vm_compute. exact I.
Defined.



(** ** The composed integer determines the record *)

Lemma digit_val_inj (c c' : ascii) : digit_val c = digit_val c' -> c = c'.
Proof.
  unfold digit_val. intros H.
  rewrite <- (ascii_N_embedding c), <- (ascii_N_embedding c').
  f_equal. lia.
Qed.

(** Digit strings of one length with one value are equal. *)
Lemma decimal_inj (a b : str) :
  length a = length b ->
  forallb is_digit_char a = true -> forallb is_digit_char b = true ->
  decimal a = decimal b -> a = b.
Proof.
  revert b. induction a as [|c a IH]; intros [|c' b] Hl Ha Hb Hd;
    try discriminate Hl; [reflexivity|].
  injection Hl as Hl. cbn [forallb] in Ha, Hb.
  apply andb_true_iff in Ha as [Hc Ha], Hb as [Hc' Hb].
  rewrite !decimal_cons in Hd. unfold len in Hd. rewrite Hl in Hd.
  pose proof (decimal_range a Ha) as Ra. pose proof (decimal_range b Hb) as Rb.
  unfold len in Ra, Rb. rewrite Hl in Ra.
  apply digit_val_range in Hc, Hc'.
  set (P := 10 ^ Z.of_nat (length b)) in *. clearbody P.
  assert (digit_val c = digit_val c' /\ decimal a = decimal b) as [Hv Hr].
  { destruct (Z.lt_trichotomy (digit_val c) (digit_val c')) as [Hlt|[He|Hgt]];
      [exfalso; nia | rewrite He in Hd; lia | exfalso; nia]. }
  f_equal; [now apply digit_val_inj | now apply IH].
Qed.

(** The routing code in terms of the delivery zip. *)
Lemma routing_code_cases (imb : IntelligentMailBarcode) :
  accepted imb ->
  let z := deliv_zip imb in
  forallb is_digit_char z = true /\
  ((length z = 0%nat /\ routing_code imb = Ok 0) \/
   (length z = 5%nat /\ routing_code imb = Ok (decimal z + 1)) \/
   (length z = 9%nat /\ routing_code imb = Ok (decimal z + 100001)) \/
   (length z = 11%nat /\ routing_code imb = Ok (decimal z + 1000100001))).
Proof.
  intros [_ _ _ _ Hz _ _ _ _ Hl]%accepted_valid. cbn zeta.
  assert (Hd : forallb is_digit_char (deliv_zip imb) = true).
  { destruct Hz as [Hz| ->]; [now apply isdigit_chars|reflexivity]. }
  split; [exact Hd|].
  assert (Hi : deliv_zip imb <> [] ->
               int (deliv_zip imb) = Ok (decimal (deliv_zip imb))).
  { intros Hne. now apply int_digits. }
  unfold routing_code, routing, len.
  destruct Hl as [Hl|[Hl|[Hl|Hl]]]; rewrite Hl;
    cbn [Z.eqb Z.of_nat Pos.of_succ_nat Pos.succ Pos.eqb];
    [left; auto | right; left | right; right; left | right; right; right];
    (rewrite Hi; [auto|]); intros E; rewrite E in Hl; discriminate Hl.
Qed.

Lemma routing_code_inj (imb1 imb2 : IntelligentMailBarcode) (rc : Z) :
  accepted imb1 -> accepted imb2 ->
  routing_code imb1 = Ok rc -> routing_code imb2 = Ok rc ->
  deliv_zip imb1 = deliv_zip imb2.
Proof.
  intros H1 H2 E1 E2.
  destruct (routing_code_cases imb1 H1) as [D1 C1].
  destruct (routing_code_cases imb2 H2) as [D2 C2].
  pose proof (decimal_range _ D1) as R1. pose proof (decimal_range _ D2) as R2.
  unfold len in R1, R2.
  destruct C1 as [[L1 F1]|[[L1 F1]|[[L1 F1]|[L1 F1]]]];
    destruct C2 as [[L2 F2]|[[L2 F2]|[[L2 F2]|[L2 F2]]]];
    rewrite L1 in R1; rewrite L2 in R2;
    rewrite F1 in E1; rewrite F2 in E2;
    injection E1 as E1; injection E2 as E2;
    cbn [Z.of_nat Pos.of_succ_nat Pos.succ] in R1, R2;
    try (exfalso;
         change (10 ^ 0) with 1 in *; change (10 ^ 5) with 100000 in *;
         change (10 ^ 9) with 1000000000 in *;
         change (10 ^ 11) with 100000000000 in *; lia);
    apply decimal_inj; auto; try congruence; lia.
Qed.

Section ComposeInjective.
Variables imb1 imb2 : IntelligentMailBarcode.
Hypothesis Hacc1 : accepted imb1.
Hypothesis Hstd1 : standard_widths imb1.
Hypothesis Hacc2 : accepted imb2.
Hypothesis Hstd2 : standard_widths imb2.

Lemma mailer_serial_inj :
  mailer_id imb1 ++ serial_num imb1 = mailer_id imb2 ++ serial_num imb2 ->
  mailer_id imb1 = mailer_id imb2 /\ serial_num imb1 = serial_num imb2.
Proof.
  intros E.
  destruct (mailer_id_first_digit imb1 Hacc1) as (c1 & r1 & E1 & F1).
  destruct (mailer_id_first_digit imb2 Hacc2) as (c2 & r2 & E2 & F2).
  destruct (standard_valid imb1 Hacc1) as [_ _ _ _ _ _ _ _ M1 _].
  destruct (standard_valid imb2 Hacc2) as [_ _ _ _ _ _ _ _ M2 _].
  assert (Hc : c1 = c2).
  { rewrite E1, E2 in E. now injection E. }
  assert (Hl : length (mailer_id imb1) = length (mailer_id imb2)).
  { subst c2.
    destruct M1 as [(L1 & _ & _)|(L1 & _ & _)],
             M2 as [(L2 & _ & _)|(L2 & _ & _)]; try congruence.
    - apply F1 in L1. apply F2 in L1. congruence.
    - apply F2 in L2. apply F1 in L2. congruence. }
  apply app_inj_1 in E; assumption.
Qed.

Lemma binary_compose_inj (rc_val : Z) :
  binary_compose imb1 = Ok rc_val -> binary_compose imb2 = Ok rc_val ->
  imb1 = imb2.
Proof.
  intros E1 E2.
  destruct (binary_compose_value imb1 Hacc1 Hstd1)
    as (r1 & a1 & b1 & Hr1 & R1 & B1 & Da1 & Db1 & V1).
  destruct (binary_compose_value imb2 Hacc2 Hstd2)
    as (r2 & a2 & b2 & Hr2 & R2 & B2 & Da2 & Db2 & V2).
  destruct (tracking_tail_digits imb1 Hacc1 Hstd1) as [L1 D1].
  destruct (tracking_tail_digits imb2 Hacc2 Hstd2) as [L2 D2].
  cbn zeta in L1, D1, L2, D2.
  rewrite E1 in V1. rewrite E2 in V2. injection V1 as V1. injection V2 as V2.
  pose proof (decimal_range _ D1) as T1. pose proof (decimal_range _ D2) as T2.
  unfold len in T1, T2. rewrite L1 in T1. rewrite L2 in T2.
  change (10 ^ Z.of_nat 18) with 1000000000000000000 in T1, T2.
  change (10 ^ 18) with 1000000000000000000 in V1, V2.
  set (t1 := decimal (service_type_id imb1 ++ _)) in *.
  set (t2 := decimal (service_type_id imb2 ++ _)) in *.
  assert (Ht : t1 = t2 /\ digit_val a1 = digit_val a2 /\
               digit_val b1 = digit_val b2 /\ r1 = r2) by lia.
  destruct Ht as (Ht & Ha & Hb & Hr). subst t1 t2.
  apply decimal_inj in Ht; [|congruence|assumption..].
  apply digit_val_inj in Ha, Hb. subst a2 b2 r2.
  assert (Hz : deliv_zip imb1 = deliv_zip imb2)
    by (eapply routing_code_inj; eassumption).
  destruct Hstd1 as [_ S1], Hstd2 as [_ S2].
  apply app_inj_1 in Ht as [Hs Ht]; [|congruence].
  apply mailer_serial_inj in Ht as [Hm Hn].
  destruct imb1, imb2. cbn in *. congruence.
Qed.
End ComposeInjective.

(** ** The bars determine the characters *)

Lemma land_bit (c b : Z) :
  0 <= b -> negb (Z.land c (Z.shiftl 1 b) =? 0) = Z.testbit c b.
Proof.
  intros Hb. rewrite Z.shiftl_1_l.
  destruct (Z.testbit c b) eqn:Hc.
  - apply negb_true_iff, Z.eqb_neq. intros H0.
    apply (f_equal (fun x => Z.testbit x b)) in H0.
    rewrite Z.land_spec, Hc, Z.pow2_bits_true, Z.bits_0 in H0 by lia.
    discriminate H0.
  - apply negb_false_iff, Z.eqb_eq, Z.bits_inj'. intros i Hi.
    rewrite Z.land_spec, Z.bits_0, Z.pow2_bits_eqb by lia.
    destruct (Z.eqb_spec b i) as [<-|]; [now rewrite Hc | apply andb_false_r].
Qed.

Lemma int_nonneg (s : str) (k : Z) : int s = Ok k -> 0 <= k.
Proof.
  unfold int. destruct (isdigit s) eqn:Hs; [|discriminate].
  intros [= <-]. apply decimal_range. now apply isdigit_chars.
Qed.

(** Step 6 on one bar, in closed form. *)
Lemma bar_step_eq (bar_table : list BarMap) (char_list : list Z)
    (enc_str : str) (i : nat) (bm : BarMap) :
  bar_table !! i = Some bm -> barmap_ok bm = true ->
  length char_list = 10%nat ->
  bar_step bar_table char_list enc_str (Z.of_nat i)
  = Ok (enc_str ++ [bar_of char_list bm]).
Proof.
  intros Hi Hok Hlen. unfold bar_step.
  destruct (getitem_Ok bar_table (Z.of_nat i)) as (bm' & -> & Hbm).
  { apply lookup_lt_Some in Hi. unfold len. lia. }
  rewrite Nat2Z.id, Hi in Hbm. injection Hbm as <-. cbn [bind].
  unfold bar_of, asc_ref, desc_ref, char_bit_set, char_bit. cbn [fst snd].
  unfold barmap_ok in Hok.
  destruct (ord (asc_char bm)) as [a|]; [|discriminate].
  destruct (ord (desc_char bm)) as [d|]; [|discriminate].
  destruct (int (asc_bit bm)) as [ba|] eqn:Eba; [|discriminate].
  destruct (int (desc_bit bm)) as [bd|] eqn:Ebd; [|discriminate].
  apply int_nonneg in Eba, Ebd.
  apply andb_true_iff in Hok as [[[Ha Hd]%andb_true_iff _]%andb_true_iff _].
  apply between_spec in Ha, Hd.
  change (ord (lit "A")) with (Ok (A := Z) 65). cbn [bind].
  destruct (getitem_Ok char_list (a - 65)) as (ca & -> & Hca).
  { unfold len. lia. }
  destruct (getitem_Ok char_list (d - 65)) as (cd & -> & Hcd).
  { unfold len. lia. }
  cbn [bind]. rewrite Hca, Hcd. cbn [default from_option id].
  rewrite !land_bit by assumption. unfold symbol_of.
  destruct (Z.testbit ca ba), (Z.testbit cd bd); reflexivity.
Qed.

(** Step 6, in closed form. *)
Lemma bar_loop_eq (bar_table : list BarMap) (char_list : list Z) :
  forallb barmap_ok bar_table = true -> length char_list = 10%nat ->
  forall (n k : nat) (enc_str : str),
    (k + n <= length bar_table)%nat ->
    for_each (count_from (Z.of_nat k) n) (bar_step bar_table char_list)
             enc_str
    = Ok (enc_str ++ map (bar_of char_list) (take n (drop k bar_table))).
Proof.
  intros Hok Hlen. induction n as [|n IH]; intros k enc Hk.
  - cbn. now rewrite app_nil_r.
  - destruct (lookup_lt_is_Some_2 bar_table k) as [bm Hbm]; [lia|].
    cbn [count_from for_each].
    rewrite (bar_step_eq _ _ _ _ bm Hbm); [|
      rewrite forallb_forall in Hok;
      apply Hok, list_elem_of_In, list_elem_of_lookup; eauto | exact Hlen].
    cbn [bind]. replace (Z.of_nat k + 1) with (Z.of_nat (S k)) by lia.
    rewrite IH by lia. rewrite (drop_S _ _ _ Hbm). cbn [take map].
    now rewrite <- app_assoc.
Qed.

Lemma symbol_of_inj (a d a' d' : bool) :
  symbol_of a d = symbol_of a' d' -> a = a' /\ d = d'.
Proof. destruct a, d, a', d'; cbn; intros [=]; auto. Qed.

(** Two lists of ten 13-bit characters with the same bars are equal. *)
Lemma bars_determine_characters (bar_table : list BarMap) (l1 l2 : list Z) :
  bar_refs bar_table ≡ₚ character_bits ->
  length l1 = 10%nat -> length l2 = 10%nat ->
  Forall (fun c => 0 <= c < 8192) l1 -> Forall (fun c => 0 <= c < 8192) l2 ->
  map (bar_of l1) bar_table = map (bar_of l2) bar_table -> l1 = l2.
Proof.
  intros Hperm H1 H2 R1 R2 Heq.
  assert (Hbits : forall ref, ref ∈ bar_refs bar_table ->
                    char_bit_set l1 ref = char_bit_set l2 ref).
  { intros ref Href. unfold bar_refs in Href.
    apply list_elem_of_In, in_flat_map in Href as (bm & Hbm & Href).
    apply list_elem_of_In, list_elem_of_lookup in Hbm as [i Hi].
    apply (f_equal (fun l => l !! i)) in Heq.
    rewrite !list_lookup_fmap, Hi in Heq. injection Heq as Heq.
    apply symbol_of_inj in Heq as [Ha Hd].
    destruct Href as [<-|[<-|[]]]; assumption. }
  apply list_eq. intros i.
  destruct (Nat.lt_ge_cases i 10) as [Hi|Hi].
  2:{ rewrite !lookup_ge_None_2 by lia. reflexivity. }
  destruct (lookup_lt_is_Some_2 l1 i) as [c1 E1]; [lia|].
  destruct (lookup_lt_is_Some_2 l2 i) as [c2 E2]; [lia|].
  rewrite E1, E2. f_equal.
  rewrite Forall_lookup in R1, R2.
  apply (bits_eq_bounded _ _ 13); [exact (R1 _ _ E1) | exact (R2 _ _ E2) |].
  intros b Hb.
  assert (Href : (Z.of_nat i, b) ∈ character_bits).
  { unfold character_bits. apply list_elem_of_In, in_flat_map.
    exists (Z.of_nat i). split.
    - apply list_elem_of_In, elem_of_range. lia.
    - apply in_map, list_elem_of_In, elem_of_range. lia. }
  rewrite <- Hperm in Href. apply Hbits in Href.
  unfold char_bit_set in Href. cbn [fst snd] in Href.
  now rewrite Nat2Z.id, E1, E2 in Href.
Qed.

(** ** The inversion loop *)

Lemma invert_loop_eq (fcs : Z) :
  forall (n k : nat) (l : list Z),
    (k + n <= length l)%nat ->
    for_each (count_from (Z.of_nat k) n) (invert_step fcs) l
    = Ok (imap (fun i c =>
                  if (k <=? i)%nat && (i <? k + n)%nat
                     && Z.testbit fcs (Z.of_nat i)
                  then Z.lxor c 0x1fff else c) l).
Proof.
  induction n as [|n IH]; intros k l Hk.
  - cbn [count_from for_each]. f_equal. apply list_eq. intros i.
    rewrite list_lookup_imap. destruct (l !! i); [|reflexivity].
    destruct (Nat.leb_spec k i), (Nat.ltb_spec i (k + 0)); try lia;
      reflexivity.
  - cbn [count_from for_each]. unfold invert_step at 1.
    rewrite land_bit by lia.
    destruct (lookup_lt_is_Some_2 l k) as [c Hc]; [lia|].
    assert (Hget : getitem l (Z.of_nat k) = Ok c).
    { destruct (getitem_Ok l (Z.of_nat k)) as (c' & -> & Hc').
      - unfold len. lia.
      - rewrite Nat2Z.id, Hc in Hc'. congruence. }
    set (l' := if Z.testbit fcs (Z.of_nat k)
               then <[k := Z.lxor c 0x1fff]> l else l).
    assert (Hstep : (if Z.testbit fcs (Z.of_nat k)
                     then do c <- getitem l (Z.of_nat k);
                          setitem l (Z.of_nat k) (Z.lxor c 0x1fff)
                     else Ok l) = Ok l').
    { unfold l'. destruct (Z.testbit fcs (Z.of_nat k)); [|reflexivity].
      rewrite Hget. cbn [bind]. rewrite setitem_Ok by (unfold len; lia).
      now rewrite Nat2Z.id. }
    rewrite Hstep. cbn [bind].
    replace (Z.of_nat k + 1) with (Z.of_nat (S k)) by lia.
    assert (Hl' : length l' = length l).
    { unfold l'. destruct (Z.testbit fcs _); [apply length_insert|reflexivity]. }
    rewrite IH by lia. f_equal. apply list_eq. intros i.
    rewrite !list_lookup_imap.
    destruct (Nat.eq_dec i k) as [->|Hne].
    + assert (El : l' !! k = Some (if Z.testbit fcs (Z.of_nat k)
                                   then Z.lxor c 0x1fff else c)).
      { unfold l'. destruct (Z.testbit fcs _); [|exact Hc].
        apply list_lookup_insert_eq. lia. }
      rewrite El, Hc.
      destruct (Nat.leb_spec (S k) k), (Nat.leb_spec k k),
        (Nat.ltb_spec k (k + S n)); try lia.
      reflexivity.
    + assert (El : l' !! i = l !! i).
      { unfold l'. destruct (Z.testbit fcs _); [|reflexivity].
        now apply list_lookup_insert_ne. }
      rewrite El. destruct (l !! i); [|reflexivity].
      destruct (Nat.leb_spec (S k) i), (Nat.leb_spec k i),
        (Nat.ltb_spec i (S k + n)), (Nat.ltb_spec i (k + S n)); try lia;
        reflexivity.
Qed.

(** Step 5, second loop, in closed form. *)
Lemma invert_loop_inverted (fcs : Z) (char_list : list Z) :
  length char_list = 10%nat ->
  for_each (range 0 10) (invert_step fcs) char_list
  = Ok (inverted fcs char_list).
Proof.
  intros Hl. change (range 0 10) with (count_from (Z.of_nat 0) 10).
  rewrite invert_loop_eq by lia. f_equal. unfold inverted.
  apply imap_ext. intros i c Hi. apply lookup_lt_Some in Hi.
  destruct (Nat.leb_spec 0 i), (Nat.ltb_spec i (0 + 10)); try lia.
  reflexivity.
Qed.

(** Steps 5 (second loop) and 6, in closed form. *)
Lemma bars_eq (fcs : Z) (char_list : list Z) :
  length char_list = 10%nat ->
  exists bar_table,
    _bar_construction_table = Ok bar_table /\
    bar_refs bar_table ≡ₚ character_bits /\
    bars fcs char_list
    = Ok (map (bar_of (inverted fcs char_list)) bar_table).
Proof.
  intros Hl.
  destruct bar_construction_table_refs as (tbl & E & L & Hok & Hnd & Hin).
  exists tbl. split; [exact E|]. split.
  { apply submseteq_length_Permutation.
    - apply NoDup_submseteq; [exact Hnd|]. now apply Forall_forall.
    - rewrite length_bar_refs, L. reflexivity. }
  unfold bars. rewrite E, invert_loop_inverted by exact Hl. cbn [bind].
  change (range 0 65) with (count_from (Z.of_nat 0) 65).
  rewrite (bar_loop_eq tbl) by
    (first [exact Hok | unfold inverted; now rewrite length_imap | lia]).
  rewrite drop_0, <- L, firstn_all. reflexivity.
Qed.

(** ** The barcode determines the record *)

(** The two tables read as one. *)
Lemma tables_facts :
  exists lut5 lut2,
    _lookup_table 5 1287 = Ok lut5 /\ _lookup_table 2 78 = Ok lut2 /\
    length lut5 = 1287%nat /\ length lut2 = 78%nat /\
    NoDup (lut5 ++ lut2) /\
    Forall (fun v => 0 <= v < 8192 /\ 0 <= Z.lxor v 0x1fff < 8192 /\
                     Z.lxor v 0x1fff ∉ lut5 ++ lut2) (lut5 ++ lut2).
Proof.
  destruct lookup_table_fill_5 as (st5 & E5 & [[L5 P5 N5] _ _]).
  destruct lookup_table_fill_2 as (st2 & E2 & [[L2 P2 N2] _ _]).
  exists (lut st5), (lut st2).
  split; [exact (lookup_table_of_fill _ _ _ E5)|].
  split; [exact (lookup_table_of_fill _ _ _ E2)|].
  split; [exact L5|]. split; [exact L2|].
  pose proof (patterns_disjoint 5 2 _ _ ltac:(lia) P5 P2) as Hdis.
  rewrite Forall_forall in P5, P2, Hdis. split.
  - apply NoDup_app. auto.
  - apply Forall_forall.
    intros v [Hv%P5|Hv%P2]%elem_of_app;
      pose proof (pattern_complement _ _ Hv) as Hc;
      (split; [apply Hv|]); (split; [apply Hc|]);
      intros [Hw%P5|Hw%P2]%elem_of_app;
      destruct Hc as [_ Hc], Hw as [_ Hw]; rewrite Hc in Hw; discriminate Hw.
Qed.

Lemma character_of_lookup (lut5 lut2 : list Z) (cw : Z) :
  length lut5 = 1287%nat -> length lut2 = 78%nat -> in_codeword_range cw ->
  (lut5 ++ lut2) !! Z.to_nat cw = Some (character_of lut5 lut2 cw).
Proof.
  intros L5 L2 [Hlo Hhi]. unfold character_of.
  destruct (lookup_lt_is_Some_2 (lut5 ++ lut2) (Z.to_nat cw)) as [c ->];
    [rewrite length_app; lia | reflexivity].
Qed.

Lemma lxor_cancel (a b m : Z) : Z.lxor a m = Z.lxor b m -> a = b.
Proof.
  intros H. apply (f_equal (fun x => Z.lxor x m)) in H.
  now rewrite !Z.lxor_assoc, !Z.lxor_nilpotent, !Z.lxor_0_r in H.
Qed.

(** Equal characters after the inversion come from equal characters and
    equal inversion flags. *)
Lemma inverted_char_inj (T : list Z) (v w : Z) (f g : bool) :
  Forall (fun v => Z.lxor v 0x1fff ∉ T) T -> v ∈ T -> w ∈ T ->
  (if f then Z.lxor v 0x1fff else v) = (if g then Z.lxor w 0x1fff else w) ->
  f = g /\ v = w.
Proof.
  intros Hinv Hv Hw E. rewrite Forall_forall in Hinv.
  destruct f, g.
  - split; [reflexivity|]. now apply lxor_cancel in E.
  - exfalso. apply (Hinv v Hv). now rewrite E.
  - exfalso. apply (Hinv w Hw). now rewrite <- E.
  - auto.
Qed.

Lemma inverted_lookup (fcs : Z) (l : list Z) (i : nat) :
  inverted fcs l !! i
  = (fun c => if Z.testbit fcs (Z.of_nat i) then Z.lxor c 0x1fff else c)
      <$> l !! i.
Proof. unfold inverted. apply list_lookup_imap. Qed.

(** Equal character lists after the inversion come from equal codewords
    and FCS values that agree on their ten low bits. *)
Lemma inverted_characters_inj (lut5 lut2 cws1 cws2 : list Z) (fcs1 fcs2 : Z) :
  length lut5 = 1287%nat -> length lut2 = 78%nat ->
  NoDup (lut5 ++ lut2) ->
  Forall (fun v => Z.lxor v 0x1fff ∉ lut5 ++ lut2) (lut5 ++ lut2) ->
  length cws1 = 10%nat -> length cws2 = 10%nat ->
  Forall in_codeword_range cws1 -> Forall in_codeword_range cws2 ->
  inverted fcs1 (map (character_of lut5 lut2) cws1)
  = inverted fcs2 (map (character_of lut5 lut2) cws2) ->
  cws1 = cws2.
Proof.
  intros L5 L2 Hnd Hinv H1 H2 R1 R2 E.
  apply list_eq. intros i.
  destruct (Nat.lt_ge_cases i 10) as [Hi|Hi].
  2:{ rewrite !lookup_ge_None_2 by lia. reflexivity. }
  destruct (lookup_lt_is_Some_2 cws1 i) as [a Ea]; [lia|].
  destruct (lookup_lt_is_Some_2 cws2 i) as [b Eb]; [lia|].
  rewrite Ea, Eb. f_equal.
  apply (f_equal (fun l => l !! i)) in E.
  rewrite !inverted_lookup, !list_lookup_fmap, Ea, Eb in E.
  cbn [fmap option_fmap option_map] in E. injection E as E.
  rewrite Forall_lookup in R1, R2.
  pose proof (character_of_lookup lut5 lut2 a L5 L2 (R1 _ _ Ea)) as Ca.
  pose proof (character_of_lookup lut5 lut2 b L5 L2 (R2 _ _ Eb)) as Cb.
  apply inverted_char_inj with (T := lut5 ++ lut2) in E as [_ E];
    [| exact Hinv | apply list_elem_of_lookup; eauto..].
  rewrite <- E in Cb.
  pose proof (NoDup_lookup _ _ _ _ Hnd Ca Cb) as Hab.
  destruct (R1 _ _ Ea), (R2 _ _ Eb). lia.
Qed.

Section EncodeInjective.
Variables imb1 imb2 : IntelligentMailBarcode.
Hypothesis Hacc1 : accepted imb1.
Hypothesis Hstd1 : standard_widths imb1.
Hypothesis Hacc2 : accepted imb2.
Hypothesis Hstd2 : standard_widths imb2.

Lemma encode_inj : encode imb1 = encode imb2 -> imb1 = imb2.
Proof.
  intros Henc.
  destruct (codewords_standard imb1 Hacc1 Hstd1)
    as (rc1 & cws1 & E1 & _ & C1 & L1 & R1).
  destruct (codewords_standard imb2 Hacc2 Hstd2)
    as (rc2 & cws2 & E2 & _ & C2 & L2 & R2).
  destruct (encode_of_codewords imb1 rc1 cws1 E1 C1)
    as (lut5 & lut2 & s1 & T5 & T2 & B1 & S1 & _).
  destruct (encode_of_codewords imb2 rc2 cws2 E2 C2)
    as (lut5' & lut2' & s2 & T5' & T2' & B2 & S2 & _).
  rewrite T5 in T5'. rewrite T2 in T2'.
  injection T5' as <-. injection T2' as <-.
  rewrite S1, S2 in Henc. injection Henc as <-.
  destruct tables_facts as (l5 & l2 & F5 & F2 & Len5 & Len2 & Hnd & Hall).
  rewrite T5 in F5. rewrite T2 in F2. injection F5 as <-. injection F2 as <-.
  set (chars1 := map (character_of lut5 lut2) cws1) in *.
  set (chars2 := map (character_of lut5 lut2) cws2) in *.
  assert (Hc1 : length chars1 = 10%nat) by (unfold chars1; now rewrite length_map).
  assert (Hc2 : length chars2 = 10%nat) by (unfold chars2; now rewrite length_map).
  destruct (bars_eq (frame_check_sequence rc1) chars1 Hc1)
    as (tbl & Et & Hperm & Bq1).
  destruct (bars_eq (frame_check_sequence rc2) chars2 Hc2)
    as (tbl' & Et' & _ & Bq2).
  rewrite Et in Et'. injection Et' as <-.
  rewrite B1 in Bq1. rewrite B2 in Bq2. rewrite Bq1 in Bq2.
  injection Bq2 as Bq.
  assert (Hb : forall fcs cws, Forall in_codeword_range cws ->
            Forall (fun c => 0 <= c < 8192)
                   (inverted fcs (map (character_of lut5 lut2) cws))).
  { intros fcs cws Hr. apply Forall_lookup. intros i c Hi.
    rewrite inverted_lookup, list_lookup_fmap in Hi.
    destruct (cws !! i) as [cw|] eqn:Ecw; [|discriminate].
    cbn [fmap option_fmap option_map] in Hi. injection Hi as <-.
    rewrite Forall_lookup in Hr.
    pose proof (character_of_lookup lut5 lut2 cw Len5 Len2 (Hr _ _ Ecw)) as Hl.
    apply list_elem_of_lookup_2 in Hl.
    rewrite Forall_forall in Hall. destruct (Hall _ Hl) as (? & ? & _).
    now destruct (Z.testbit fcs _). }
  apply bars_determine_characters in Bq;
    [| exact Hperm
     | unfold inverted; now rewrite length_imap
     | unfold inverted; now rewrite length_imap
     | now apply Hb | now apply Hb ].
  apply inverted_characters_inj in Bq; try assumption.
  2:{ eapply Forall_impl; [exact Hall|]. now intros v (_ & _ & ?). }
  subst cws2.
  apply codewords_payload in C1, C2. rewrite C1 in C2. subst rc2.
  exact (binary_compose_inj imb1 imb2 Hacc1 Hstd1 Hacc2 Hstd2 rc1 E1 E2).
Qed.
End EncodeInjective.

(** X22: two accepted records whose barcode ids have 2 and service type
    ids 3 characters and for which step 1 computes the same integer are
    the same record. *)
Theorem payload_determines_record (imb1 imb2 : IntelligentMailBarcode) :
  accepted imb1 -> standard_widths imb1 ->
  accepted imb2 -> standard_widths imb2 ->
  binary_compose imb1 = binary_compose imb2 -> imb1 = imb2.
Proof.
  intros A1 S1 A2 S2 E.
  destruct (rc_val_bound imb1 A1 S1) as (rc & E1 & _).
  rewrite E1 in E. symmetry in E.
  exact (binary_compose_inj imb1 imb2 A1 S1 A2 S2 rc E1 E).
Qed.

(** X23: steps 5 (second loop) and 6 can be read backward: two lists of
    ten 13-bit characters that give the same bars, each with its own FCS,
    are equal after the inversion. *)
Theorem bars_determine_inverted_characters (fcs1 fcs2 : Z)
    (l1 l2 : list Z) :
  length l1 = 10%nat -> length l2 = 10%nat ->
  Forall (fun c => 0 <= c < 8192) l1 -> Forall (fun c => 0 <= c < 8192) l2 ->
  bars fcs1 l1 = bars fcs2 l2 ->
  inverted fcs1 l1 = inverted fcs2 l2.
Proof.
  intros H1 H2 R1 R2 E.
  destruct (bars_eq fcs1 l1 H1) as (tbl & Et & Hperm & B1).
  destruct (bars_eq fcs2 l2 H2) as (tbl' & Et' & _ & B2).
  rewrite Et in Et'. injection Et' as <-.
  rewrite B1, B2 in E. injection E as E.
  assert (Hb : forall fcs l, Forall (fun c => 0 <= c < 8192) l ->
                 Forall (fun c => 0 <= c < 8192) (inverted fcs l)).
  { intros fcs l Hl. apply Forall_lookup. intros i c Hi.
    rewrite inverted_lookup in Hi.
    destruct (l !! i) as [x|] eqn:Ex; [|discriminate].
    cbn [fmap option_fmap option_map] in Hi. injection Hi as <-.
    rewrite Forall_lookup in Hl. specialize (Hl _ _ Ex).
    destruct (Z.testbit fcs _); [|exact Hl].
    change 0x1fff with (Z.ones 13).
    assert (H13 : 0 <= Z.ones 13) by (change (Z.ones 13) with 8191; lia).
    assert (Hnn : 0 <= Z.lxor x (Z.ones 13)).
    { apply Z.lxor_nonneg. split; intros _; [exact H13 | lia]. }
    split; [exact Hnn|].
    apply (testbit_bound _ 13); [lia | exact Hnn |].
    intros j Hj. rewrite Z.lxor_spec, (testbit_above x 13 j) by lia.
      rewrite Z.ones_spec_high by lia. reflexivity. }
  apply (bars_determine_characters tbl); auto;
    unfold inverted; now rewrite length_imap.
Qed.

(** X24: [encode] is injective on the accepted records whose barcode ids
    have 2 and service type ids 3 characters: two such records with the
    same barcode are the same record. *)
Theorem encode_injective (imb1 imb2 : IntelligentMailBarcode) :
  accepted imb1 -> standard_widths imb1 ->
  accepted imb2 -> standard_widths imb2 ->
  encode imb1 = encode imb2 -> imb1 = imb2.
Proof. intros A1 S1 A2 S2. now apply encode_inj. Qed.

Lemma payload_determines_record_witness :
  let imb := {| barcode_id := lit "01"; service_type_id := lit "234";
                mailer_id := lit "567094"; serial_num := lit "987654321";
                deliv_zip := lit "01234" |} in
  accepted imb /\ standard_widths imb /\ imb = imb.
Proof.
  cbn zeta.
  assert (A : accepted
                {| barcode_id := lit "01"; service_type_id := lit "234";
                   mailer_id := lit "567094";
                   serial_num := lit "987654321";
                   deliv_zip := lit "01234" |}) by (vm_compute; reflexivity).
  split; [exact A|]. split; [split; reflexivity|].
  exact (payload_determines_record _ _ A (conj eq_refl eq_refl)
           A (conj eq_refl eq_refl) eq_refl).
Defined.

Lemma bars_determine_inverted_characters_witness :
  inverted 5 [31; 7936; 47; 7808; 55; 7552; 59; 7040; 61; 6016]
  = inverted 5 [31; 7936; 47; 7808; 55; 7552; 59; 7040; 61; 6016].
Proof.
  apply bars_determine_inverted_characters;
    first [ reflexivity
          | refine (bool_decide_unpack _ _); vm_compute; exact I ].
Defined.

Lemma encode_injective_witness :
  let imb := {| barcode_id := lit "01"; service_type_id := lit "234";
                mailer_id := lit "567094"; serial_num := lit "987654321";
                deliv_zip := lit "01234567891" |} in
  accepted imb /\ standard_widths imb /\ imb = imb.
Proof.
  cbn zeta.
  assert (A : accepted
                {| barcode_id := lit "01"; service_type_id := lit "234";
                   mailer_id := lit "567094";
                   serial_num := lit "987654321";
                   deliv_zip := lit "01234567891" |})
    by (vm_compute; reflexivity).
  split; [exact A|]. split; [split; reflexivity|].
  exact (encode_injective _ _ A (conj eq_refl eq_refl)
           A (conj eq_refl eq_refl) eq_refl).
Defined.

(** ** The bits the frame check sequence reads *)

Lemma land_1024 (x : Z) : negb (Z.land x 0x400 =? 0) = Z.testbit x 10.
Proof. exact (land_bit x 10 ltac:(lia)). Qed.

(** One turn of the bit loop reads bit 10 of [data] only. *)
Lemma fcs_step_bit (fcs d d' : Z) :
  Z.testbit d 10 = Z.testbit d' 10 ->
  fst (fcs_step (fcs, d)) = fst (fcs_step (fcs, d')).
Proof.
  intros H. unfold fcs_step. cbn [fst].
  rewrite !land_1024, !Z.lxor_spec, H. reflexivity.
Qed.

Lemma fcs_step_snd (fcs d : Z) : snd (fcs_step (fcs, d)) = Z.shiftl d 1.
Proof. reflexivity. Qed.

(** [n] turns read the bits 10, 9, ..., 11 - n of [data]. *)
Lemma fcs_iter_bits (n : nat) :
  forall fcs d d',
    (forall j, 10 - Z.of_nat n < j <= 10 -> Z.testbit d j = Z.testbit d' j) ->
    fst (Nat.iter n fcs_step (fcs, d)) = fst (Nat.iter n fcs_step (fcs, d')).
Proof.
  induction n as [|n IH]; intros fcs d d' H; [reflexivity|].
  rewrite !Nat.iter_succ_r.
  rewrite (surjective_pairing (fcs_step (fcs, d))),
          (surjective_pairing (fcs_step (fcs, d'))).
  rewrite (fcs_step_bit fcs d d') by (apply H; lia).
  rewrite !fcs_step_snd. apply IH. intros j Hj.
  destruct (Z.neg_nonneg_cases j) as [Hneg|Hnn];
    [now rewrite !Z.testbit_neg_r by exact Hneg|].
  rewrite !Z.shiftl_spec by exact Hnn. apply H. lia.
Qed.

Lemma mod_bits_low (rc_val j : Z) :
  0 <= j < 102 -> Z.testbit (rc_val mod 2 ^ 102) j = Z.testbit rc_val j.
Proof. intros Hj. apply Z.mod_pow2_bits_low. lia. Qed.

Lemma fcs_byte_low (rc_val fcs k : Z) :
  1 <= k < 13 ->
  fcs_byte (rc_val mod 2 ^ 102) fcs k = fcs_byte rc_val fcs k.
Proof.
  intros Hk.
  assert (Hd : Z.land (Z.shiftr (rc_val mod 2 ^ 102) ((12 - k) * 8)) 0xff
               = Z.land (Z.shiftr rc_val ((12 - k) * 8)) 0xff).
  { apply Z.bits_inj'. intros j Hj.
    rewrite !Z.land_spec, !Z.shiftr_spec by lia.
    destruct (Z.lt_ge_cases j 8) as [Hj8|Hj8].
    - rewrite mod_bits_low by lia. reflexivity.
    - replace (Z.testbit 255 j) with false; [now rewrite !andb_false_r|].
      symmetry. apply (testbit_above 255 8); lia. }
  unfold fcs_byte. now rewrite Hd.
Qed.

Lemma fold_left_ext_in {A B} (f g : A -> B -> A) (l : list B) :
  (forall a b, b ∈ l -> f a b = g a b) ->
  forall a, fold_left f l a = fold_left g l a.
Proof.
  induction l as [|b l IH]; intros H a; cbn [fold_left]; [reflexivity|].
  rewrite (H a b) by apply list_elem_of_here.
  apply IH. intros a' b' Hb'. apply H. now apply list_elem_of_further.
Qed.

Lemma fcs_head_low (rc_val fcs : Z) :
  fst (Nat.iter 6 fcs_step
         (fcs, Z.shiftl (Z.shiftr (rc_val mod 2 ^ 102) (12 * 8)) 5))
  = fst (Nat.iter 6 fcs_step (fcs, Z.shiftl (Z.shiftr rc_val (12 * 8)) 5)).
Proof.
  apply fcs_iter_bits. intros j Hj.
  rewrite !Z.shiftl_spec, !Z.shiftr_spec by lia.
  apply mod_bits_low. lia.
Qed.

(** X25: the frame check sequence reads the 102 low bits of the composed
    integer and nothing above them. *)
Theorem frame_check_sequence_reads_102_bits (rc_val : Z) :
  frame_check_sequence (rc_val mod 2 ^ 102) = frame_check_sequence rc_val.
Proof.
  unfold frame_check_sequence. rewrite fcs_head_low.
  apply fold_left_ext_in. intros fcs k Hk%elem_of_range.
  now apply fcs_byte_low.
Qed.
